(** * Learning-rate schedulers of [mlp/schedulers.py]

    A shallow embedding of the two scheduler classes of
    [coursework_1/mlp/schedulers.py]:

    - [ConstantLearningRateScheduler], which writes a fixed rate into the
      learning rule, and
    - [CosineAnnealingWithWarmRestarts], the SGDR schedule with period
      expansion and peak discounting.

    The module is read as Python 3: [/] on two [int]s is true division.
    Python objects are records threaded through the calls (state passing).
    A raised exception is the [Raise] branch of [result]; it carries the
    exception and the objects as the statements executed before the raising
    one left them.  Python [int]s are [Z].  Python [float]s are kept abstract
    behind the class [PyFloat], which lists exactly the float operations the
    module performs, the partial ones ([float(z)], [a / b], [int(x)]) as
    partial functions; the class has two instances:

    - [binary64], IEEE-754 double precision on Rocq's primitive floats, which
      is what CPython executes: an [int] whose nearest float is not finite,
      or a quotient of two [int]s whose nearest float is not finite, raises
      [OverflowError].  [math.cos] comes from the platform's C library and is
      a parameter of that instance.
    - [exact], the real numbers, i.e. the same program with rounding and
      overflow switched off.  Statements about orderings of rates and periods
      that cannot survive rounding in general are proved for this instance. *)

From Stdlib Require Import ZArith List Bool Lia.
From Stdlib Require Import Reals Lra Psatz Floats.
Import ListNotations.

Set Implicit Arguments.
Set Warnings "-inexact-float".

(** ** Exceptions and results *)

Inductive exn : Type :=
| ZeroDivisionError
| OverflowError
| ValueError.

(** The outcome of a computation: a value, or an exception together with the
    state [St] in which it was raised. *)
Inductive result (St A : Type) : Type :=
| Ok (a : A)
| Raise (x : exn) (st : St).

Arguments Ok {St A} a.
Arguments Raise {St A} x st.

Definition bind {St A B : Type} (r : result St A) (k : A -> result St B)
    : result St B :=
  match r with
  | Ok a => k a
  | Raise x st => Raise x st
  end.

Notation "x <- r ;; k" := (bind r (fun x => k))
  (at level 61, r at next level, right associativity).

(** An arithmetic operation touches no object; when it raises inside a
    method, the objects are in the state [st] reached so far. *)
Definition in_state {St A : Type} (st : St) (r : result unit A) : result St A :=
  match r with
  | Ok a => Ok a
  | Raise x _ => Raise x st
  end.

(** ** The float operations used by the module *)

Class PyFloat : Type := {
  F : Type;
  (** [x + y], [x - y], [x * y] on floats; they never raise *)
  fadd : F -> F -> F;
  fsub : F -> F -> F;
  fmul : F -> F -> F;
  (** the literal [0.5], and the [int] literal [1] as the float operand it
      becomes in [1 + math.cos(...)] *)
  half : F;
  one : F;
  (** [float(z)], the coercion applied to an [int] operand of a mixed
      operation; [None] when Python raises [OverflowError] *)
  of_int : Z -> option F;
  (** [a / b] on two [int]s, for [b <> 0]; [None] when Python raises
      [OverflowError] *)
  int_truediv : Z -> Z -> option F;
  (** [int(x)], truncation towards zero; [None] when Python raises, which is
      [ValueError] on a nan and [OverflowError] on an infinity *)
  trunc : F -> option Z;
  is_nan : F -> bool;
  (** [z == x] between an [int] and a [float], decided on the exact values;
      it never raises *)
  int_eqb : Z -> F -> bool;
  (** [math.cos] and [math.pi].  [math.cos] raises only at an infinity; the
      module applies it to [math.pi] times a quotient [tCur / period] that
      true division has returned, with [tCur] between zero and the period. *)
  math_cos : F -> F;
  math_pi : F
}.

(** Python's [a % b] on integers.  [Z.modulo] has the sign of the divisor,
    as Python's [%] does. *)
Definition py_mod (a b : Z) : result unit Z :=
  if (b =? 0)%Z then Raise ZeroDivisionError tt else Ok (a mod b)%Z.

(** [a / b] on integers *)
Definition py_truediv `{PyFloat} (a b : Z) : result unit F :=
  if (b =? 0)%Z then Raise ZeroDivisionError tt
  else match int_truediv a b with
       | Some x => Ok x
       | None => Raise OverflowError tt
       end.

(** [float(z)], as applied to the [int] operand of a mixed operation *)
Definition py_float `{PyFloat} (z : Z) : result unit F :=
  match of_int z with
  | Some x => Ok x
  | None => Raise OverflowError tt
  end.

(** [int(x)] *)
Definition py_int `{PyFloat} (x : F) : result unit Z :=
  match trunc x with
  | Some z => Ok z
  | None => Raise (if is_nan x then ValueError else OverflowError) tt
  end.

(** ** The learning rule, as far as a scheduler can touch it *)

Module LearningRule.
Section WithFloat.
Context `{PyFloat}.

(** Modelled from the spec: the learning-rule classes that the training loop
    passes to a scheduler live in another module of the repository, which is
    not among the sources embedded here.  The specification (sections 1 and
    6) gives their interface: a writable scalar learning-rate attribute and a
    [reset()] operation without arguments or result, whose effect inside the
    optimiser is opaque to the scheduler.  The record keeps the attribute
    and counts the calls of [reset()]. *)
Record t : Type := {
  learning_rate : F;
  reset_calls : nat
}.

Definition set_learning_rate (x : F) (r : t) : t :=
  {| learning_rate := x; reset_calls := reset_calls r |}.

Definition reset (r : t) : t :=
  {| learning_rate := learning_rate r; reset_calls := S (reset_calls r) |}.
End WithFloat.
End LearningRule.

(** What a Python call hands back: a float, or [None] when the body falls
    off its end. *)
Inductive pyval `{PyFloat} : Type :=
| PyNone
| PyFloatVal (x : F).

(** ** [class ConstantLearningRateScheduler] *)
Module ConstantLearningRateScheduler.
Section WithFloat.
Context `{PyFloat}.

Record self : Type := {
  learning_rate : F
}.

Definition init (learning_rate : F) : self :=
  {| learning_rate := learning_rate |}.

(** One attribute assignment; nothing in it can raise. *)
Definition update_learning_rule (s : self) (learning_rule : LearningRule.t)
    (epoch_number : Z) : pyval * self * LearningRule.t :=
  (PyNone, s, LearningRule.set_learning_rate (learning_rate s) learning_rule).
End WithFloat.
End ConstantLearningRateScheduler.

(** ** [class CosineAnnealingWithWarmRestarts] *)
Module CosineAnnealingWithWarmRestarts.
Section WithFloat.
Context `{PyFloat}.

(** [tNext] and [tPeriod] start as the [int] [total_epochs_per_period] and
    turn into floats at the first restart, when the period is multiplied by
    the (float) expansion factor. *)
Inductive num : Type :=
| Int (z : Z)
| Float (x : F).

(** The float operand a number becomes in a mixed operation. *)
Definition to_float (n : num) : result unit F :=
  match n with
  | Int z => py_float z
  | Float x => Ok x
  end.

(** [n * x] with [x] a float *)
Definition num_mul_float (n : num) (x : F) : result unit num :=
  y <- to_float n ;;
  Ok (Float (fmul y x)).

(** [a + b] *)
Definition num_add (a b : num) : result unit num :=
  match a, b with
  | Int x, Int y => Ok (Int (x + y))
  | _, _ =>
      x <- to_float a ;;
      y <- to_float b ;;
      Ok (Float (fadd x y))
  end.

(** [z == n] with [z] an int *)
Definition int_eq_num (z : Z) (n : num) : bool :=
  match n with
  | Int y => (z =? y)%Z
  | Float x => int_eqb z x
  end.

Record self : Type := {
  min_learning_rate : F;
  max_learning_rate : F;
  total_epochs_per_period : Z;
  max_learning_rate_discount_factor : F;
  period_iteration_expansion_factor : F;
  tNext : num;
  tPeriod : num;
  tCur : Z;
  t : Z
}.

Definition init (min_learning_rate max_learning_rate : F)
    (total_iters_per_period : Z)
    (max_learning_rate_discount_factor period_iteration_expansion_factor : F)
    : self :=
  {| min_learning_rate := min_learning_rate;
     max_learning_rate := max_learning_rate;
     total_epochs_per_period := total_iters_per_period;
     max_learning_rate_discount_factor := max_learning_rate_discount_factor;
     period_iteration_expansion_factor := period_iteration_expansion_factor;
     tNext := Int total_iters_per_period;
     tPeriod := Int total_iters_per_period;
     tCur := 0;
     t := 0 |}.

(** [for i in range(n): acc *= d] *)
Fixpoint discount_loop (n : nat) (acc d : F) : F :=
  match n with
  | O => acc
  | S n' => discount_loop n' (fmul acc d) d
  end.

(** [effective_max_learning_rate] after the loop over [range(self.t)];
    [range] of a negative number is empty. *)
Definition effective_max_learning_rate (s : self) (cycles : Z) : F :=
  discount_loop (Z.to_nat cycles) (max_learning_rate s)
    (max_learning_rate_discount_factor s).

(** Assignments to [self.tCur] and [self.t] ... *)
Definition set_position (s : self) (tCur' t' : Z) : self :=
  {| min_learning_rate := min_learning_rate s;
     max_learning_rate := max_learning_rate s;
     total_epochs_per_period := total_epochs_per_period s;
     max_learning_rate_discount_factor := max_learning_rate_discount_factor s;
     period_iteration_expansion_factor := period_iteration_expansion_factor s;
     tNext := tNext s;
     tPeriod := tPeriod s;
     tCur := tCur';
     t := t' |}.

(** ... and to [self.tNext] and [self.tPeriod]. *)
Definition set_period (s : self) (tNext' tPeriod' : num) : self :=
  {| min_learning_rate := min_learning_rate s;
     max_learning_rate := max_learning_rate s;
     total_epochs_per_period := total_epochs_per_period s;
     max_learning_rate_discount_factor := max_learning_rate_discount_factor s;
     period_iteration_expansion_factor := period_iteration_expansion_factor s;
     tNext := tNext';
     tPeriod := tPeriod';
     tCur := tCur s;
     t := t s |}.

(** The body of [if (epoch_number==self.tNext):], statement by statement:
    [self.tPeriod *= factor], [self.tNext += self.tPeriod], [self.t += 1],
    [self.tCur = 0], [learning_rule.reset()]. *)
Definition restart (s : self) (learning_rule : LearningRule.t)
    : result (self * LearningRule.t) (self * LearningRule.t) :=
  tPeriod' <- in_state (s, learning_rule)
                (num_mul_float (tPeriod s) (period_iteration_expansion_factor s)) ;;
  let s := set_period s (tNext s) tPeriod' in
  tNext' <- in_state (s, learning_rule) (num_add (tNext s) (tPeriod s)) ;;
  let s := set_period s tNext' (tPeriod s) in
  let s := set_position s (tCur s) (t s + 1) in
  let s := set_position s 0 (t s) in
  Ok (s, LearningRule.reset learning_rule).

(** [min + 0.5*(eff - min)*(1+math.cos(math.pi*x))], with Python's
    left-to-right association of [*]; [x] is [tCur/total_epochs_per_period]. *)
Definition cosine_rate (s : self) (eff x : F) : F :=
  fadd (min_learning_rate s)
    (fmul (fmul half (fsub eff (min_learning_rate s)))
          (fadd one (math_cos (fmul math_pi x)))).

Definition update_learning_rule (s : self) (learning_rule : LearningRule.t)
    (epoch_number : Z)
    : result (self * LearningRule.t) (F * self * LearningRule.t) :=
  (* self.tCur = epoch_number % self.total_epochs_per_period *)
  tCur' <- in_state (s, learning_rule)
             (py_mod epoch_number (total_epochs_per_period s)) ;;
  let s := set_position s tCur' (t s) in
  (* self.t = int(epoch_number/self.total_epochs_per_period) *)
  q <- in_state (s, learning_rule)
         (py_truediv epoch_number (total_epochs_per_period s)) ;;
  t' <- in_state (s, learning_rule) (py_int q) ;;
  let s := set_position s (tCur s) t' in
  let effective := effective_max_learning_rate s (t s) in
  r <- (if int_eq_num epoch_number (tNext s)
        then restart s learning_rule
        else Ok (s, learning_rule)) ;;
  let '(s, learning_rule) := r in
  (* h = ... self.tCur/self.total_epochs_per_period ... *)
  x <- in_state (s, learning_rule)
         (py_truediv (tCur s) (total_epochs_per_period s)) ;;
  let h := cosine_rate s effective x in
  (* self.tCur += 1 *)
  Ok (h, set_position s (tCur s + 1) (t s), learning_rule).

(** The training loop: one call per epoch, in the order given; the rates
    returned are collected in call order.  An exception ends the loop. *)
Fixpoint run (s : self) (learning_rule : LearningRule.t) (epochs : list Z)
    : result (self * LearningRule.t) (list F * self * LearningRule.t) :=
  match epochs with
  | [] => Ok ([], s, learning_rule)
  | e :: rest =>
      r <- update_learning_rule s learning_rule e ;;
      let '(h, s', learning_rule') := r in
      r' <- run s' learning_rule' rest ;;
      let '(hs, s'', learning_rule'') := r' in
      Ok (h :: hs, s'', learning_rule'')
  end.

(** The scheduler and the learning rule as a call, or a run, leaves them,
    whether it returned or raised. *)
Definition state_after {A : Type}
    (r : result (self * LearningRule.t) (A * self * LearningRule.t))
    : self * LearningRule.t :=
  match r with
  | Ok (_, s, learning_rule) => (s, learning_rule)
  | Raise _ st => st
  end.
End WithFloat.
End CosineAnnealingWithWarmRestarts.

(** ** Instance 1: IEEE-754 binary64, as CPython computes *)
Module Binary64.
(** An integer as an unrounded radix-2 number [m * 2^0]. *)
Definition Z2SF (z : Z) : spec_float :=
  match z with
  | Z0 => S754_zero false
  | Zpos p => S754_finite false p 0
  | Zneg p => S754_finite true p 0
  end.

(** The float a correctly rounded result denotes, unless the rounding left
    the finite range. *)
Definition finite (x : spec_float) : option float :=
  match x with
  | S754_infinity _ | S754_nan => None
  | _ => Some (SF2Prim x)
  end.

(** [float(z)]: round to nearest, ties to even; [OverflowError] from
    [2^1024 - 2^970] on. *)
Definition of_int (z : Z) : option float :=
  finite (binary_normalize prec emax z 0 false).

(** [a / b]: the exact quotient rounded once, as CPython's
    [long_true_divide] does; a zero numerator takes the sign of the
    divisor; [OverflowError] when the rounded quotient is not finite. *)
Definition int_truediv (a b : Z) : option float :=
  finite (SFdiv prec emax (Z2SF a) (Z2SF b)).

(** [int(x)]: drop the fractional bits; an infinity or a nan raises. *)
Definition trunc (x : float) : option Z :=
  match Prim2SF x with
  | S754_zero _ => Some 0%Z
  | S754_finite s m e => Some (cond_Zopp s (Z.shiftl (Zpos m) e))
  | S754_infinity _ | S754_nan => None
  end.

(** [z == x]: true when [x] is finite, integral and equal to [z]. *)
Definition int_eqb (z : Z) (x : float) : bool :=
  match Prim2SF x with
  | S754_zero _ => (z =? 0)%Z
  | S754_finite s m e =>
      let v := Z.shiftl (Zpos m) e in
      (Z.shiftl v (- e) =? Zpos m)%Z && (z =? cond_Zopp s v)%Z
  | _ => false
  end.

(** [math.pi] *)
Definition pi : float := 0x1.921fb54442d18p+1%float.
End Binary64.

Definition binary64 (cos : float -> float) : PyFloat :=
  {| F := float;
     fadd := PrimFloat.add;
     fsub := PrimFloat.sub;
     fmul := PrimFloat.mul;
     half := 0.5%float;
     one := 1%float;
     of_int := Binary64.of_int;
     int_truediv := Binary64.int_truediv;
     trunc := Binary64.trunc;
     is_nan := PrimFloat.is_nan;
     int_eqb := Binary64.int_eqb;
     math_cos := cos;
     math_pi := Binary64.pi |}.

(** ** Instance 2: exact real arithmetic *)
Module Exact.
(** [int(x)] on a real: floor above zero, ceiling below. *)
Definition trunc (x : R) : Z :=
  if Rle_dec 0 x then Zfloor x else Zceil x.

Definition int_eqb (z : Z) (x : R) : bool :=
  if Req_dec_T (IZR z) x then true else false.
End Exact.

Definition exact : PyFloat :=
  {| F := R;
     fadd := Rplus;
     fsub := Rminus;
     fmul := Rmult;
     half := (/ 2)%R;
     one := 1%R;
     of_int := fun z => Some (IZR z);
     int_truediv := fun a b => Some (IZR a / IZR b)%R;
     trunc := fun x => Some (Exact.trunc x);
     is_nan := fun _ => false;
     int_eqb := Exact.int_eqb;
     math_cos := cos;
     math_pi := PI |}.

(** The real number a [tNext] or [tPeriod] stands for in exact arithmetic,
    where every conversion succeeds. *)
Definition exact_value (n : @CosineAnnealingWithWarmRestarts.num exact) : R :=
  match n with
  | CosineAnnealingWithWarmRestarts.Int z => IZR z
  | CosineAnnealingWithWarmRestarts.Float x => x
  end.

(** The real number a binary64 float denotes, when it is finite. *)
Definition binary64_value (x : float) : option R :=
  match Prim2SF x with
  | S754_zero _ => Some 0%R
  | S754_finite s m e => Some (IZR (cond_Zopp s (Zpos m)) * powerRZ 2 e)%R
  | S754_infinity _ | S754_nan => None
  end.

(** The epochs [a, a+1, ..., a+n-1], and the first [n] epochs of a training
    run. *)
Definition epoch_range (a n : nat) : list Z := map Z.of_nat (seq a n).

Definition epochs (n : nat) : list Z := epoch_range 0 n.

(** The five constructor arguments stored on a cosine scheduler. *)
Definition hyperparameters `{PyFloat} (s : CosineAnnealingWithWarmRestarts.self)
    : F * F * Z * F * F :=
  (CosineAnnealingWithWarmRestarts.min_learning_rate s,
   CosineAnnealingWithWarmRestarts.max_learning_rate s,
   CosineAnnealingWithWarmRestarts.total_epochs_per_period s,
   CosineAnnealingWithWarmRestarts.max_learning_rate_discount_factor s,
   CosineAnnealingWithWarmRestarts.period_iteration_expansion_factor s).
(** ** Concrete configurations used in examples

    [plain] and [discounted] are the two scenarios of the specification's
    section 8; the others exercise period expansion, period shrinking, a
    peak discounted below the minimum, and a negative period. *)
Module Scenario.
Definition rule_exact : @LearningRule.t exact :=
  @LearningRule.Build_t exact (/ 10)%R 0.

Definition rule_binary64 (cos : float -> float) : @LearningRule.t (binary64 cos) :=
  @LearningRule.Build_t (binary64 cos) 0.1%float 0.

Definition plain_exact : @CosineAnnealingWithWarmRestarts.self exact :=
  @CosineAnnealingWithWarmRestarts.init exact 0%R 1%R 10 1%R 1%R.

Definition discounted_exact : @CosineAnnealingWithWarmRestarts.self exact :=
  @CosineAnnealingWithWarmRestarts.init exact 0%R 1%R 10 (/ 2)%R 1%R.

Definition shrinking_exact : @CosineAnnealingWithWarmRestarts.self exact :=
  @CosineAnnealingWithWarmRestarts.init exact 0%R 1%R 10 1%R (/ 2)%R.

Definition sunk_peak_exact : @CosineAnnealingWithWarmRestarts.self exact :=
  @CosineAnnealingWithWarmRestarts.init exact (/ 2)%R 1%R 10 (/ 4)%R 1%R.

Definition negative_period_exact : @CosineAnnealingWithWarmRestarts.self exact :=
  @CosineAnnealingWithWarmRestarts.init exact 0%R 1%R (-10) 1%R 1%R.

Definition plain_binary64 (cos : float -> float)
    : @CosineAnnealingWithWarmRestarts.self (binary64 cos) :=
  @CosineAnnealingWithWarmRestarts.init (binary64 cos) 0%float 1%float 10 1%float 1%float.

Definition discounted_binary64 (cos : float -> float)
    : @CosineAnnealingWithWarmRestarts.self (binary64 cos) :=
  @CosineAnnealingWithWarmRestarts.init (binary64 cos) 0%float 1%float 10 0.5%float 1%float.

Definition expanding_binary64 (cos : float -> float)
    : @CosineAnnealingWithWarmRestarts.self (binary64 cos) :=
  @CosineAnnealingWithWarmRestarts.init (binary64 cos) 0%float 1%float 10 1%float 2%float.

Definition shrinking_binary64 (cos : float -> float)
    : @CosineAnnealingWithWarmRestarts.self (binary64 cos) :=
  @CosineAnnealingWithWarmRestarts.init (binary64 cos) 0%float 1%float 10 1%float 0.5%float.

Definition negative_period_binary64 (cos : float -> float)
    : @CosineAnnealingWithWarmRestarts.self (binary64 cos) :=
  @CosineAnnealingWithWarmRestarts.init (binary64 cos) 0%float 1%float (-10) 1%float 1%float.

Definition typical_binary64 (cos : float -> float)
    : @CosineAnnealingWithWarmRestarts.self (binary64 cos) :=
  @CosineAnnealingWithWarmRestarts.init (binary64 cos)
    0.001%float 0.01%float 10 1%float 1%float.

(** A stand-in for [math.cos] that is right at zero and at [pi * 0.5], the
    only two arguments whose cosine decides a value in the scenarios. *)
Definition cos_at_scenario_points (x : float) : float :=
  if PrimFloat.eqb x 0%float then 1%float else 0x1.1a62633145c07p-54%float.
End Scenario.

(** ** The two scenarios of the specification, as predicates

    [plain_scenario]: epochs 0..9 are run in order without any [reset()], the
    rates returned at epochs 0 and 5 are [one] and [half], and the call at
    epoch 10 returns [one] after one [reset()]. *)
Definition plain_scenario `{PyFloat} (s : CosineAnnealingWithWarmRestarts.self)
    (rule : LearningRule.t) (one half : F) : Prop :=
  exists rates s10 s11,
    CosineAnnealingWithWarmRestarts.run s rule (epochs 10) = Ok (rates, s10, rule)
    /\ nth_error rates 0 = Some one
    /\ nth_error rates 5 = Some half
    /\ CosineAnnealingWithWarmRestarts.update_learning_rule s10 rule 10 =
       Ok (one, s11, LearningRule.reset rule).

(** [discounted_scenario]: epochs 0..9 run without [reset()], the call at
    epoch 10 returns [half] after one [reset()], epochs 11..19 run without
    another, and the call at epoch 20 returns [quarter] after a second. *)
Definition discounted_scenario `{PyFloat} (s : CosineAnnealingWithWarmRestarts.self)
    (rule : LearningRule.t) (half quarter : F) : Prop :=
  exists rates s10 s11 rates' s20 s21,
    CosineAnnealingWithWarmRestarts.run s rule (epochs 10) = Ok (rates, s10, rule)
    /\ CosineAnnealingWithWarmRestarts.update_learning_rule s10 rule 10 =
       Ok (half, s11, LearningRule.reset rule)
    /\ CosineAnnealingWithWarmRestarts.run s11 (LearningRule.reset rule)
         (epoch_range 11 9) =
       Ok (rates', s20, LearningRule.reset rule)
    /\ CosineAnnealingWithWarmRestarts.update_learning_rule s20
         (LearningRule.reset rule) 20 =
       Ok (quarter, s21, LearningRule.reset (LearningRule.reset rule)).

(** * Properties *)

Import CosineAnnealingWithWarmRestarts.

(** ** What one call does, for any float arithmetic *)
Section AnyArithmetic.
Context `{PyFloat}.

Lemma py_mod_ok (a b : Z) : b <> 0%Z -> py_mod a b = Ok (a mod b)%Z.
Proof.
  intros Hb. unfold py_mod.
  destruct (Z.eqb_spec b 0) as [E | _]; [contradiction | reflexivity].
Qed.

Lemma py_truediv_nonzero (a b : Z) :
  b <> 0%Z ->
  py_truediv a b =
    match int_truediv a b with
    | Some x => Ok x
    | None => Raise OverflowError tt
    end.
Proof.
  intros Hb. unfold py_truediv.
  destruct (Z.eqb_spec b 0) as [E | _]; [contradiction | reflexivity].
Qed.

(** The only exception of the mixed operations is that of [float(z)]. *)
Lemma to_float_raises (n : num) (x : exn) (u : unit) :
  to_float n = Raise x u -> x = OverflowError.
Proof.
  unfold to_float, py_float. destruct n as [z | y]; [destruct (of_int z) |];
    intros E; inversion E; reflexivity.
Qed.

Lemma num_mul_float_raises (n : num) (y : F) (x : exn) (u : unit) :
  num_mul_float n y = Raise x u -> x = OverflowError.
Proof.
  unfold num_mul_float. destruct (to_float n) as [v | x' u'] eqn:E;
    cbn [bind]; intros Hr; inversion Hr; subst.
  eapply to_float_raises. exact E.
Qed.

Lemma num_add_raises (a b : num) (x : exn) (u : unit) :
  num_add a b = Raise x u -> x = OverflowError.
Proof.
  assert (G : (x' <- to_float a ;; y <- to_float b ;; Ok (Float (fadd x' y)))
              = Raise x u -> x = OverflowError).
  { destruct (to_float a) as [v | x' u'] eqn:Ea; cbn [bind].
    - destruct (to_float b) as [w | x' u'] eqn:Eb; cbn [bind];
        intros Hr; inversion Hr; subst.
      eapply to_float_raises. exact Eb.
    - intros Hr; inversion Hr; subst. eapply to_float_raises. exact Ea. }
  unfold num_add. destruct a as [z | y], b as [z' | y']; try exact G.
  intros Hr. discriminate Hr.
Qed.

(** With a zero period the very first statement raises, before any
    attribute is written. *)
Lemma update_zero_period (s : self) (lr : LearningRule.t) (e : Z) :
  total_epochs_per_period s = 0%Z ->
  update_learning_rule s lr e = Raise ZeroDivisionError (s, lr).
Proof.
  intros HP. unfold update_learning_rule, py_mod. rewrite HP. reflexivity.
Qed.

(** With a non-zero period, the call statement by statement: each partial
    operation either yields its value or ends the call with the state
    written so far. *)
Lemma update_nonzero_period (s : self) (lr : LearningRule.t) (e : Z) :
  total_epochs_per_period s <> 0%Z ->
  let P := total_epochs_per_period s in
  update_learning_rule s lr e =
    match int_truediv e P with
    | None => Raise OverflowError (set_position s (e mod P) (t s), lr)
    | Some q =>
        match trunc q with
        | None => Raise (if is_nan q then ValueError else OverflowError)
                    (set_position s (e mod P) (t s), lr)
        | Some c =>
            let s1 := set_position s (e mod P) c in
            let eff := effective_max_learning_rate s c in
            if int_eq_num e (tNext s)
            then
              match num_mul_float (tPeriod s) (period_iteration_expansion_factor s) with
              | Raise x _ => Raise x (s1, lr)
              | Ok p' =>
                  match num_add (tNext s) p' with
                  | Raise x _ => Raise x (set_period s1 (tNext s) p', lr)
                  | Ok n' =>
                      let s2 := set_position (set_period s1 n' p') 0 (c + 1) in
                      match int_truediv 0 P with
                      | None => Raise OverflowError (s2, LearningRule.reset lr)
                      | Some x0 =>
                          Ok (cosine_rate s eff x0, set_position s2 1 (c + 1),
                              LearningRule.reset lr)
                      end
                  end
              end
            else
              match int_truediv (e mod P) P with
              | None => Raise OverflowError (s1, lr)
              | Some x =>
                  Ok (cosine_rate s eff x, set_position s (e mod P + 1) c, lr)
              end
        end
    end.
Proof.
  intros HP. cbv zeta. unfold update_learning_rule.
  rewrite (py_mod_ok e HP). cbn [in_state bind].
  unfold restart, set_position, set_period.
  cbn [total_epochs_per_period tCur t tNext tPeriod
       period_iteration_expansion_factor].
  rewrite (py_truediv_nonzero e HP).
  destruct (int_truediv e (total_epochs_per_period s)) as [q |];
    [| reflexivity].
  cbn [in_state bind]. unfold py_int.
  destruct (trunc q) as [c |]; [| reflexivity].
  cbn [in_state bind].
  destruct (int_eq_num e (tNext s)).
  - destruct (num_mul_float (tPeriod s) (period_iteration_expansion_factor s))
      as [p' | x []]; [| reflexivity].
    cbn [in_state bind total_epochs_per_period tCur t tNext tPeriod].
    destruct (num_add (tNext s) p') as [n' | x []]; [| reflexivity].
    cbn [in_state bind total_epochs_per_period tCur t tNext tPeriod].
    rewrite (py_truediv_nonzero 0 HP).
    destruct (int_truediv 0 (total_epochs_per_period s)); reflexivity.
  - cbn [bind tCur total_epochs_per_period].
    rewrite (py_truediv_nonzero (e mod total_epochs_per_period s) HP).
    destruct (int_truediv (e mod total_epochs_per_period s)
                (total_epochs_per_period s)); reflexivity.
Qed.
End AnyArithmetic.

(** Case analysis on the outcome of one call with a non-zero period [HP]. *)
Ltac update_cases s lr e HP :=
  rewrite (update_nonzero_period s lr e HP); cbv zeta;
  let q := fresh "q" in
  let c := fresh "c" in
  let p' := fresh "p'" in
  let n' := fresh "n'" in
  let x0 := fresh "x0" in
  let Hq := fresh "Hq" in
  let Hc := fresh "Hc" in
  let He := fresh "He" in
  let Hp := fresh "Hp" in
  let Hn := fresh "Hn" in
  let Hx := fresh "Hx" in
  destruct (int_truediv e (total_epochs_per_period s)) as [q |] eqn:Hq;
  [ destruct (trunc q) as [c |] eqn:Hc;
    [ destruct (int_eq_num e (tNext s)) eqn:He;
      [ destruct (num_mul_float (tPeriod s) (period_iteration_expansion_factor s))
          as [p' | ? []] eqn:Hp;
        [ destruct (num_add (tNext s) p') as [n' | ? []] eqn:Hn;
          [ destruct (int_truediv 0 (total_epochs_per_period s)) as [x0 |] eqn:Hx
          | ]
        | ]
      | destruct (int_truediv (e mod total_epochs_per_period s)
                    (total_epochs_per_period s)) as [x0 |] eqn:Hx ]
    | ]
  | ].

Section AnyArithmeticFrame.
Context `{PyFloat}.

(** Whatever the outcome, a call leaves the hyperparameters and the learning
    rule's rate alone and applies [reset()] at most once. *)
Lemma update_frame (s : self) (lr : LearningRule.t) (e : Z) :
  let st := state_after (update_learning_rule s lr e) in
  hyperparameters (fst st) = hyperparameters s
  /\ (snd st = lr \/ snd st = LearningRule.reset lr).
Proof.
  cbv zeta.
  destruct (Z.eq_dec (total_epochs_per_period s) 0) as [HP | HP].
  - rewrite (update_zero_period s lr e HP). cbn. auto.
  - update_cases s lr e HP; cbn; auto.
Qed.

Lemma update_keeps_hyperparameters (s s' : self) (lr lr' : LearningRule.t)
    (e : Z) (h : F) :
  update_learning_rule s lr e = Ok (h, s', lr') ->
  hyperparameters s' = hyperparameters s.
Proof.
  intros Hu. pose proof (update_frame s lr e) as Hf. cbv zeta in Hf.
  rewrite Hu in Hf. apply Hf.
Qed.

(** The exceptions a call can raise. *)
Lemma update_exceptions (s : self) (lr : LearningRule.t) (e : Z) (x : exn)
    (st : self * LearningRule.t) :
  update_learning_rule s lr e = Raise x st ->
  (x = ZeroDivisionError /\ total_epochs_per_period s = 0%Z /\ st = (s, lr))
  \/ (x <> ZeroDivisionError /\ total_epochs_per_period s <> 0%Z).
Proof.
  intros Hu.
  destruct (Z.eq_dec (total_epochs_per_period s) 0) as [HP | HP].
  - rewrite (update_zero_period s lr e HP) in Hu. inversion Hu. auto.
  - right. split; [| exact HP]. revert Hu.
    update_cases s lr e HP; intros Hu; inversion Hu; subst;
      try discriminate;
      try (destruct (is_nan q); discriminate);
      match goal with
      | E : num_mul_float _ _ = Raise _ _ |- _ =>
          rewrite (num_mul_float_raises _ _ E); discriminate
      | E : num_add _ _ = Raise _ _ |- _ =>
          rewrite (num_add_raises _ _ E); discriminate
      end.
Qed.
End AnyArithmeticFrame.

(** ** Facts about the exact instance *)
Section ExactArithmetic.
Open Scope R_scope.

Lemma exact_int_eqb_true (z : Z) (x : R) : IZR z = x -> Exact.int_eqb z x = true.
Proof. intros E. unfold Exact.int_eqb. destruct (Req_dec_T (IZR z) x); [reflexivity | contradiction]. Qed.

Lemma exact_int_eqb_false (z : Z) (x : R) : IZR z <> x -> Exact.int_eqb z x = false.
Proof. intros E. unfold Exact.int_eqb. destruct (Req_dec_T (IZR z) x); [contradiction | reflexivity]. Qed.

Lemma exact_trunc_unique (x : R) (z : Z) :
  (0 <= x -> IZR z <= x < IZR z + 1) ->
  (x < 0 -> IZR z - 1 < x <= IZR z) ->
  Exact.trunc x = z.
Proof.
  intros Hpos Hneg. unfold Exact.trunc.
  destruct (Rle_dec 0 x) as [H0 | H0].
  - apply Zfloor_eq. auto.
  - apply Zceil_eq. apply Hneg. lra.
Qed.

Lemma quot_bounds (a b : Z) : (b <> 0)%Z ->
  ((0 <= a * b -> b * b * Z.quot a b <= a * b < b * b * Z.quot a b + b * b) /\
   (a * b < 0 -> b * b * Z.quot a b - b * b < a * b <= b * b * Z.quot a b))%Z.
Proof.
  intros Hb.
  pose proof (Z.quot_rem' a b) as Hqr.
  assert (Hr : (0 <= a * b -> 0 <= Z.rem a b * b < b * b)%Z /\
               (a * b < 0 -> - (b * b) < Z.rem a b * b <= 0)%Z).
  { destruct (Z.lt_trichotomy a 0) as [Ha | [Ha | Ha]],
             (Z.lt_trichotomy b 0) as [Hb' | [Hb' | Hb']];
      try contradiction; try (subst a; rewrite Z.rem_0_l by exact Hb; lia).
    - pose proof (Z.rem_bound_pos (- a) (- b) ltac:(lia) ltac:(lia)) as Hx.
      rewrite Z.rem_opp_r, Z.rem_opp_l in Hx by lia. split; intros; nia.
    - pose proof (Z.rem_bound_pos (- a) b ltac:(lia) Hb') as Hx.
      rewrite Z.rem_opp_l in Hx by lia. split; intros; nia.
    - pose proof (Z.rem_bound_pos a (- b) ltac:(lia) ltac:(lia)) as Hx.
      rewrite Z.rem_opp_r in Hx by lia. split; intros; nia.
    - pose proof (Z.rem_bound_pos a b ltac:(lia) Hb') as Hx. split; intros; nia. }
  destruct Hr as [Hr1 Hr2].
  set (q := Z.quot a b) in *. set (r := Z.rem a b) in *.
  assert (Hab : (a * b = b * b * q + r * b)%Z) by (rewrite Hqr at 1; ring).
  split; intros Hs; [specialize (Hr1 Hs) | specialize (Hr2 Hs)]; lia.
Qed.

Lemma exact_trunc_quot (a b : Z) : (b <> 0)%Z ->
  Exact.trunc (IZR a / IZR b) = Z.quot a b.
Proof.
  intros Hb.
  destruct (quot_bounds a Hb) as [Hp Hn].
  assert (HbR : IZR b <> 0) by (apply not_0_IZR; exact Hb).
  assert (Hbb : 0 < IZR b * IZR b) by nra.
  assert (Hx : IZR a / IZR b * (IZR b * IZR b) = IZR a * IZR b) by (field; exact HbR).
  set (x := IZR a / IZR b) in *.
  apply exact_trunc_unique.
  - intros H0.
    assert (Hs : (0 <= a * b)%Z).
    { apply le_IZR. rewrite mult_IZR. nra. }
    specialize (Hp Hs). destruct Hp as [Hp1 Hp2].
    apply IZR_le in Hp1. apply IZR_lt in Hp2.
    repeat first [rewrite mult_IZR in Hp1, Hp2 | rewrite mult_IZR in Hp1 | rewrite mult_IZR in Hp2 | rewrite plus_IZR in Hp2].
    set (B := IZR b * IZR b) in *. set (AB := IZR a * IZR b) in *. split; nra.
  - intros H0.
    assert (Hs : (a * b < 0)%Z).
    { apply lt_IZR. rewrite mult_IZR. nra. }
    specialize (Hn Hs). destruct Hn as [Hn1 Hn2].
    apply IZR_lt in Hn1. apply IZR_le in Hn2.
    repeat first [rewrite mult_IZR in Hn1, Hn2 | rewrite mult_IZR in Hn1 | rewrite mult_IZR in Hn2 | rewrite minus_IZR in Hn1].
    set (B := IZR b * IZR b) in *. set (AB := IZR a * IZR b) in *. split; nra.
Qed.

Lemma exact_int_eq_num_true (e : Z) (n : @num exact) :
  IZR e = exact_value n -> @int_eq_num exact e n = true.
Proof.
  destruct n as [z | x]; cbn [int_eq_num exact_value int_eqb exact]; intros E.
  - apply eq_IZR in E. apply Z.eqb_eq. exact E.
  - apply exact_int_eqb_true. exact E.
Qed.

Lemma exact_int_eq_num_false (e : Z) (n : @num exact) :
  IZR e <> exact_value n -> @int_eq_num exact e n = false.
Proof.
  destruct n as [z | x]; cbn [int_eq_num exact_value int_eqb exact]; intros E.
  - apply Z.eqb_neq. intros ->. apply E. reflexivity.
  - apply exact_int_eqb_false. exact E.
Qed.

Lemma exact_int_eq_num_iff (e : Z) (n : @num exact) :
  @int_eq_num exact e n = true <-> IZR e = exact_value n.
Proof.
  split; intros E.
  - destruct (Req_dec_T (IZR e) (exact_value n)) as [Y | N]; [exact Y |].
    rewrite (exact_int_eq_num_false e n N) in E. discriminate E.
  - apply exact_int_eq_num_true. exact E.
Qed.

(** In exact arithmetic no conversion fails. *)
Lemma exact_to_float (n : @num exact) : @to_float exact n = Ok (exact_value n).
Proof. destruct n; reflexivity. Qed.

Lemma exact_num_mul_float (n : @num exact) (x : R) :
  @num_mul_float exact n x = Ok (@Float exact (exact_value n * x)).
Proof. unfold num_mul_float. rewrite exact_to_float. reflexivity. Qed.

Lemma exact_num_add (a : @num exact) (y : R) :
  @num_add exact a (@Float exact y) = Ok (@Float exact (exact_value a + y)).
Proof. destruct a; reflexivity. Qed.

(** The state a restart leaves in exact arithmetic, at cycle index [c]. *)
Lemma exact_update_restart (s : @self exact) (lr : @LearningRule.t exact) (e : Z) :
  total_epochs_per_period s <> 0%Z ->
  IZR e = exact_value (tNext s) ->
  let P := total_epochs_per_period s in
  let p' := exact_value (tPeriod s) * period_iteration_expansion_factor s in
  @update_learning_rule exact s lr e =
    Ok (@cosine_rate exact s (@effective_max_learning_rate exact s (Z.quot e P)) 0,
        @set_position exact
          (@set_period exact s (@Float exact (exact_value (tNext s) + p'))
             (@Float exact p'))
          1 (Z.quot e P + 1),
        LearningRule.reset lr).
Proof.
  intros HP He. cbv zeta.
  rewrite (update_nonzero_period s lr e HP).
  rewrite (exact_int_eq_num_true e (tNext s) He).
  cbn [trunc int_truediv exact].
  rewrite (exact_trunc_quot e HP).
  rewrite exact_num_mul_float, exact_num_add.
  replace (IZR 0 / IZR (total_epochs_per_period s)) with 0 by (unfold Rdiv; ring).
  reflexivity.
Qed.

(** ... and the call when the test fails. *)
Lemma exact_update_plain (s : @self exact) (lr : @LearningRule.t exact) (e : Z) :
  total_epochs_per_period s <> 0%Z ->
  IZR e <> exact_value (tNext s) ->
  let P := total_epochs_per_period s in
  @update_learning_rule exact s lr e =
    Ok (@cosine_rate exact s (@effective_max_learning_rate exact s (Z.quot e P))
          (IZR (e mod P) / IZR P),
        @set_position exact s (e mod P + 1) (Z.quot e P),
        lr).
Proof.
  intros HP He. cbv zeta.
  rewrite (update_nonzero_period s lr e HP).
  rewrite (exact_int_eq_num_false e (tNext s) He).
  cbn [trunc int_truediv exact].
  rewrite (exact_trunc_quot e HP).
  reflexivity.
Qed.

(** In exact arithmetic a call with a non-zero period returns. *)
Lemma exact_update_returns (s : @self exact) (lr : @LearningRule.t exact) (e : Z) :
  total_epochs_per_period s <> 0%Z ->
  exists h s' lr', @update_learning_rule exact s lr e = Ok (h, s', lr').
Proof.
  intros HP.
  destruct (Req_dec_T (IZR e) (exact_value (tNext s))) as [E | N].
  - rewrite (exact_update_restart s lr e HP E). eauto.
  - rewrite (exact_update_plain s lr e HP N). eauto.
Qed.

(** At position 0 the cosine term is 1 and the formula returns the effective
    maximum, whatever it is. *)
Lemma exact_cosine_rate_peak (s : @self exact) (eff : R) :
  @cosine_rate exact s eff 0 = eff.
Proof.
  unfold cosine_rate. cbn [F fadd fsub fmul half one math_cos math_pi exact].
  rewrite Rmult_0_r, cos_0. field.
Qed.

(** In exact arithmetic the discount loop multiplies by [d^n]. *)
Lemma exact_discount_loop (n : nat) (acc d : R) :
  @discount_loop exact n acc d = acc * d ^ n.
Proof.
  revert acc. induction n as [| n IH]; intros acc; cbn [discount_loop pow].
  - cbn [F exact]. ring.
  - rewrite IH. cbn [F fmul exact]. ring.
Qed.

Lemma exact_effective_max_form (s : @self exact) (c : Z) :
  @effective_max_learning_rate exact s c =
  max_learning_rate s * max_learning_rate_discount_factor s ^ Z.to_nat c.
Proof. unfold effective_max_learning_rate. apply exact_discount_loop. Qed.

Lemma exact_effective_max_nonpos (s : @self exact) (c : Z) :
  (c <= 0)%Z -> @effective_max_learning_rate exact s c = max_learning_rate s.
Proof.
  intros Hc. rewrite exact_effective_max_form.
  replace (Z.to_nat c) with 0%nat by lia. cbn [pow]. apply Rmult_1_r.
Qed.
End ExactArithmetic.

(** ** The discount loop, in any arithmetic *)
Section DiscountLoop.
Context `{PyFloat}.

(** The loop multiplies the accumulator by the factor, once per round. *)
Lemma discount_loop_iter (n : nat) (acc d : F) :
  discount_loop n acc d = Nat.iter n (fun a => fmul a d) acc.
Proof.
  revert acc. induction n as [| n IH]; intros acc; [reflexivity |].
  cbn [discount_loop]. rewrite IH, Nat.iter_succ_r. reflexivity.
Qed.
End DiscountLoop.

(** ** Facts about the binary64 instance *)
Section Binary64Values.
Open Scope R_scope.

Lemma powerRZ_2_nonneg (k : Z) : (0 <= k)%Z -> powerRZ 2 k = IZR (2 ^ k).
Proof.
  destruct k as [| p | p]; intros Hk; [reflexivity | | lia].
  symmetry. apply (Zpower_pos_powerRZ 2 p).
Qed.

Lemma IZR_cond_Zopp (sg : bool) (z : Z) :
  IZR (cond_Zopp sg z) = IZR (cond_Zopp sg 1) * IZR z.
Proof.
  destruct sg; cbn [cond_Zopp]; rewrite ?opp_IZR; ring.
Qed.

(** [==] between an [int] and a binary64 float holds exactly when the float
    is finite and denotes that integer. *)
Lemma binary64_int_eqb_iff (z : Z) (x : float) :
  Binary64.int_eqb z x = true <-> binary64_value x = Some (IZR z).
Proof.
  unfold Binary64.int_eqb, binary64_value.
  destruct (Prim2SF x) as [sg | sg | | sg m e].
  - split; intros E.
    + apply Z.eqb_eq in E. subst z. reflexivity.
    + apply Z.eqb_eq. apply eq_IZR. inversion E. reflexivity.
  - split; intros E; discriminate E.
  - split; intros E; discriminate E.
  - cbv zeta. rewrite andb_true_iff, !Z.eqb_eq.
    destruct (Z_le_gt_dec 0 e) as [He | He].
    + rewrite (powerRZ_2_nonneg He).
      rewrite Z.shiftl_opp_r, Z.shiftr_shiftl_l, Z.sub_diag by exact He.
      change (Z.shiftl (Z.pos m) 0) with (Z.pos m).
      rewrite Z.shiftl_mul_pow2 by exact He.
      rewrite <- mult_IZR.
      assert (Hs : (cond_Zopp sg (Z.pos m) * 2 ^ e =
                    cond_Zopp sg (Z.pos m * 2 ^ e))%Z)
        by (destruct sg; cbn [cond_Zopp]; ring).
      rewrite Hs. split.
      * intros [_ ->]. reflexivity.
      * intros E. split; [reflexivity |]. inversion E as [E'].
        apply eq_IZR in E'. symmetry. exact E'.
    + set (k := (- e)%Z). assert (Hk : (0 < k)%Z) by (unfold k; lia).
      replace e with (- k)%Z by (unfold k; ring).
      rewrite Z.shiftl_opp_r.
      rewrite Z.shiftr_div_pow2, Z.shiftl_mul_pow2 by lia.
      rewrite powerRZ_neg', (powerRZ_2_nonneg (k := k)) by lia.
      assert (Hp : (0 < 2 ^ k)%Z) by (apply Z.pow_pos_nonneg; lia).
      assert (HpR : IZR (2 ^ k) <> 0) by (apply not_0_IZR; lia).
      set (p := (2 ^ k)%Z) in *.
      split.
      * intros [Hd ->]. f_equal.
        rewrite (IZR_cond_Zopp sg (Z.pos m)), (IZR_cond_Zopp sg (Z.pos m / p)).
        rewrite <- Hd at 1. rewrite mult_IZR. field. exact HpR.
      * intros E. inversion E as [E']. clear E.
        assert (Hz : (cond_Zopp sg (Z.pos m) = z * p)%Z).
        { apply eq_IZR. rewrite mult_IZR, <- E'. field. exact HpR. }
        destruct sg; cbn [cond_Zopp] in *.
        -- assert (Hm : Z.pos m = (- z * p)%Z) by lia.
           rewrite Hm, Z.div_mul by lia. split; lia.
        -- rewrite Hz, Z.div_mul by lia. split; reflexivity.
Qed.
End Binary64Values.

Section Binary64Arithmetic.
Variable cos : float -> float.
(** C's [cos] returns 1 at zero (C99, Annex F.9.1.5). *)
Hypothesis cos_zero : cos 0%float = 1%float.

Lemma binary64_truediv_zero (P : Z) :
  (0 < P)%Z -> Binary64.int_truediv 0 P = Some 0%float.
Proof. destruct P; intros HP; try lia. reflexivity. Qed.

(** At position 0 of a positive period the cosine term is 1 and the formula
    adds twice half the amplitude to the minimum. *)
Lemma binary64_cosine_rate_peak (s : @self (binary64 cos)) (eff : float) :
  @cosine_rate (binary64 cos) s eff 0%float =
    (min_learning_rate s + 0.5 * (eff - min_learning_rate s) * 2)%float.
Proof.
  unfold cosine_rate. cbn [F fadd fsub fmul half one math_cos math_pi binary64].
  change (Binary64.pi * 0)%float with 0%float.
  rewrite cos_zero. reflexivity.
Qed.

Lemma binary64_first_update (mn mx : float) (P : Z) (d x : float)
    (lr : @LearningRule.t (binary64 cos)) :
  (0 < P)%Z ->
  @update_learning_rule (binary64 cos) (@init (binary64 cos) mn mx P d x) lr 0 =
    Ok ((mn + 0.5 * (mx - mn) * 2)%float,
        @set_position (binary64 cos) (@init (binary64 cos) mn mx P d x) 1 0,
        lr).
Proof.
  intros HP.
  rewrite update_nonzero_period by (cbn; lia).
  cbn [tNext init int_eq_num total_epochs_per_period].
  replace (0 =? P)%Z with false by (symmetry; apply Z.eqb_neq; lia).
  rewrite Z.mod_0_l by lia.
  change (@int_truediv (binary64 cos)) with Binary64.int_truediv.
  change (@trunc (binary64 cos)) with Binary64.trunc.
  rewrite (binary64_truediv_zero HP).
  change (Binary64.trunc 0) with (Some 0%Z).
  pose proof (binary64_cosine_rate_peak (@init (binary64 cos) mn mx P d x) mx) as Hr.
  cbn [min_learning_rate init] in Hr.
  unfold effective_max_learning_rate. cbn [Z.to_nat discount_loop max_learning_rate init].
  rewrite Hr. reflexivity.
Qed.

(** A call whose restart test succeeds, when none of its conversions
    overflows. *)
Lemma binary64_update_restart (s : @self (binary64 cos))
    (lr : @LearningRule.t (binary64 cos)) (e c : Z) (q : float)
    (p' n' : @num (binary64 cos)) :
  (0 < total_epochs_per_period s)%Z ->
  @int_eq_num (binary64 cos) e (tNext s) = true ->
  Binary64.int_truediv e (total_epochs_per_period s) = Some q ->
  Binary64.trunc q = Some c ->
  @num_mul_float (binary64 cos) (tPeriod s) (period_iteration_expansion_factor s) =
    Ok p' ->
  @num_add (binary64 cos) (tNext s) p' = Ok n' ->
  @update_learning_rule (binary64 cos) s lr e =
    Ok ((min_learning_rate s +
         0.5 * (@effective_max_learning_rate (binary64 cos) s c - min_learning_rate s)
         * 2)%float,
        @set_position (binary64 cos) (@set_period (binary64 cos) s n' p') 1 (c + 1),
        LearningRule.reset lr).
Proof.
  intros HP He Hq Hc Hp Hn.
  assert (HPne : total_epochs_per_period s <> 0%Z) by lia.
  rewrite (update_nonzero_period s lr e HPne). rewrite He.
  change (@int_truediv (binary64 cos)) with Binary64.int_truediv.
  change (@trunc (binary64 cos)) with Binary64.trunc.
  rewrite Hq, Hc, Hp, Hn, (binary64_truediv_zero HP). cbv zeta.
  rewrite binary64_cosine_rate_peak. reflexivity.
Qed.
End Binary64Arithmetic.

(** * The claims *)

(** ** The constant scheduler *)

(** C7 (as amended).  For every epoch number, negative and zero included, the
    constant scheduler's [update_learning_rule] writes the configured rate
    into the learning rule's [learning_rate] attribute, returns [None], leaves
    the scheduler itself unchanged and does not call [reset()]. *)
Theorem C7_constant_update_sets_rate :
  forall (A : PyFloat) (rate : F) (lr : LearningRule.t) (n : Z),
    let s := ConstantLearningRateScheduler.init rate in
    ConstantLearningRateScheduler.update_learning_rule s lr n =
      (PyNone, s, LearningRule.set_learning_rate rate lr)
    /\ LearningRule.learning_rate (LearningRule.set_learning_rate rate lr) = rate
    /\ LearningRule.reset_calls (LearningRule.set_learning_rate rate lr) =
       LearningRule.reset_calls lr.
Proof.
  intros A rate lr n s. repeat split.
Qed.

(** C7 fails as stated: configured with 1/100 and given a learning rule whose
    rate is 1/10, the call at epoch 0 does not return 1/100 (it returns
    [None]) and it does have a side effect (the learning rule changes). *)
Lemma C7_counterexample :
  fst (fst (@ConstantLearningRateScheduler.update_learning_rule exact
              (@ConstantLearningRateScheduler.init exact (1 / 100)%R)
              Scenario.rule_exact 0))
    <> @PyFloatVal exact (1 / 100)%R
  /\ snd (@ConstantLearningRateScheduler.update_learning_rule exact
            (@ConstantLearningRateScheduler.init exact (1 / 100)%R)
            Scenario.rule_exact 0)
     <> Scenario.rule_exact.
Proof.
  split.
  - cbn. discriminate.
  - cbn. unfold LearningRule.set_learning_rate, Scenario.rule_exact.
    cbn [LearningRule.reset_calls]. intros E.
    assert (Hr : (1 / 100 = / 10)%R) by (injection E; auto).
    lra.
Qed.

(** ** The warm-restart scheduler: what every call does *)

(** C10.  Whatever a call does (return a rate, or raise at any statement),
    the learning rule it leaves has the [learning_rate] it had, it is the
    rule passed in or that rule after one [reset()], a [reset()] happens only
    if the test [epoch_number == self.tNext] succeeded, and the five
    hyperparameters of the scheduler are unchanged. *)
Theorem C10_update_frame :
  forall (A : PyFloat) (s : self) (lr : LearningRule.t) (e : Z),
    let s' := fst (state_after (update_learning_rule s lr e)) in
    let lr' := snd (state_after (update_learning_rule s lr e)) in
    LearningRule.learning_rate lr' = LearningRule.learning_rate lr
    /\ (lr' = lr \/ lr' = LearningRule.reset lr)
    /\ (lr' = LearningRule.reset lr -> int_eq_num e (tNext s) = true)
    /\ min_learning_rate s' = min_learning_rate s
    /\ max_learning_rate s' = max_learning_rate s
    /\ total_epochs_per_period s' = total_epochs_per_period s
    /\ max_learning_rate_discount_factor s' = max_learning_rate_discount_factor s
    /\ period_iteration_expansion_factor s' = period_iteration_expansion_factor s.
Proof.
  intros A s lr e. cbv zeta.
  assert (Hne : lr = LearningRule.reset lr -> int_eq_num e (tNext s) = true).
  { intros E. apply (f_equal LearningRule.reset_calls) in E.
    cbn [LearningRule.reset LearningRule.reset_calls] in E. lia. }
  destruct (Z.eq_dec (total_epochs_per_period s) 0) as [HP | HP].
  - rewrite (update_zero_period s lr e HP). cbn [state_after fst snd].
    repeat split; auto.
  - update_cases s lr e HP; cbn [state_after fst snd];
      repeat split; auto.
Qed.

(** C8 (as amended).  A negative epoch number is not validated.  In exact
    arithmetic, with a non-zero period, the call returns a rate; unless the
    restart test happens to succeed, that rate is the cosine formula at
    position [epoch_number % period], which for a positive period lies in
    [0, period), and the learning rule is left alone.  In any arithmetic the
    same rate is returned whenever the two divisions and the conversion
    [int(...)] of the call succeed; when the restart test fails, a call with
    a non-zero period raises only if one of them fails.  In binary64 that
    happens: at epoch [-(2^1030)] with period 10 the quotient is beyond the
    floats and the call raises [OverflowError], after [tCur] was written. *)
Theorem C8_negative_epoch_not_rejected :
  (forall (s : @self exact) (lr : @LearningRule.t exact) (e : Z),
     (e < 0)%Z ->
     total_epochs_per_period s <> 0%Z ->
     let P := total_epochs_per_period s in
     exists h s' lr',
       @update_learning_rule exact s lr e = Ok (h, s', lr')
       /\ (IZR e <> exact_value (tNext s) ->
           h = @cosine_rate exact s
                 (@effective_max_learning_rate exact s (Z.quot e P))
                 (IZR (e mod P) / IZR P)%R
           /\ tCur s' = (e mod P + 1)%Z
           /\ lr' = lr)
       /\ ((0 < P)%Z -> (0 <= e mod P < P)%Z))
  /\
  (forall (A : PyFloat) (s : self) (lr : LearningRule.t) (e c : Z) (q x : F),
     (e < 0)%Z ->
     total_epochs_per_period s <> 0%Z ->
     let P := total_epochs_per_period s in
     int_truediv e P = Some q ->
     trunc q = Some c ->
     int_eq_num e (tNext s) = false ->
     int_truediv (e mod P) P = Some x ->
     update_learning_rule s lr e =
       Ok (cosine_rate s (effective_max_learning_rate s c) x,
           set_position s (e mod P + 1) c, lr))
  /\
  (forall (A : PyFloat) (s : self) (lr : LearningRule.t) (e : Z) (x : exn)
          (st : self * LearningRule.t),
     (e < 0)%Z ->
     total_epochs_per_period s <> 0%Z ->
     let P := total_epochs_per_period s in
     int_eq_num e (tNext s) = false ->
     update_learning_rule s lr e = Raise x st ->
     int_truediv e P = None
     \/ (exists q, int_truediv e P = Some q /\ trunc q = None)
     \/ int_truediv (e mod P) P = None)
  /\
  (forall cos : float -> float,
     @update_learning_rule (binary64 cos) (Scenario.plain_binary64 cos)
       (Scenario.rule_binary64 cos) (- 2 ^ 1030) =
       Raise OverflowError
         (@set_position (binary64 cos) (Scenario.plain_binary64 cos) 6 0,
          Scenario.rule_binary64 cos)).
Proof.
  split; [| split; [| split]].
  - intros s lr e He HP P.
    assert (Hb : (0 < P)%Z -> (0 <= e mod P < P)%Z)
      by (intros HP0; apply Z.mod_pos_bound; exact HP0).
    destruct (Req_dec_T (IZR e) (exact_value (tNext s))) as [E | N].
    + rewrite (exact_update_restart s lr e HP E). do 3 eexists.
      split; [reflexivity | split; [intros N; contradiction | exact Hb]].
    + rewrite (exact_update_plain s lr e HP N). do 3 eexists.
      split; [reflexivity | split; [intros _; repeat split | exact Hb]].
  - intros A s lr e c q x He HP P Hq Hc Ht Hx.
    rewrite (update_nonzero_period s lr e HP). fold P.
    rewrite Hq, Hc, Ht, Hx. reflexivity.
  - intros A s lr e x st He HP P Ht. unfold P.
    update_cases s lr e HP; intros Hu; try discriminate; eauto.
  - intros cos.
    match goal with
    | |- ?l = _ =>
        let v := eval vm_compute in l in
        exact (@eq_refl _ v <: l = v)
    end.
Qed.

Lemma C8_witness :
  exists h s' lr',
    @update_learning_rule exact Scenario.plain_exact Scenario.rule_exact (-1) =
      Ok (h, s', lr')
    /\ (IZR (-1) <> exact_value (tNext Scenario.plain_exact) ->
        h = @cosine_rate exact Scenario.plain_exact
              (@effective_max_learning_rate exact Scenario.plain_exact
                 (Z.quot (-1) 10))
              (IZR ((-1) mod 10) / IZR 10)%R
        /\ tCur s' = ((-1) mod 10 + 1)%Z
        /\ lr' = Scenario.rule_exact)
    /\ ((0 < 10)%Z -> (0 <= (-1) mod 10 < 10)%Z).
Proof.
  apply (proj1 C8_negative_epoch_not_rejected Scenario.plain_exact
           Scenario.rule_exact (-1)%Z).
  - lia.
  - cbn. lia.
Defined.

(** C8 fails as stated: at epoch -1 the plain scenario's scheduler returns
    the cosine rate of position 9 instead of raising. *)
Lemma C8_counterexample :
  @update_learning_rule exact Scenario.plain_exact Scenario.rule_exact (-1) =
    Ok ((0 + / 2 * (1 - 0) * (1 + cos (PI * (9 / 10))))%R,
        @set_position exact Scenario.plain_exact 10 0,
        Scenario.rule_exact).
Proof.
  rewrite exact_update_plain.
  - reflexivity.
  - cbn. lia.
  - cbn [Scenario.plain_exact init tNext exact_value]. lra.
Qed.

(** C9 (as amended).  The constructor validates nothing: it stores whatever
    period it is given.  A call raises [ZeroDivisionError] exactly when the
    period is zero, and then before writing anything.  A negative period is
    not an error: in exact arithmetic every call with a non-zero period
    returns a rate, and in binary64 the first call at epoch 0 of a scheduler
    constructed with a negative period returns the rate of position
    [0 / period = -0.0]. *)
Theorem C9_raises_iff_zero_period :
  (forall (A : PyFloat) (mn mx : F) (P : Z) (d x : F),
     total_epochs_per_period (init mn mx P d x) = P)
  /\
  (forall (A : PyFloat) (s : self) (lr : LearningRule.t) (e : Z),
     (total_epochs_per_period s = 0%Z ->
      update_learning_rule s lr e = Raise ZeroDivisionError (s, lr))
     /\ (forall st, update_learning_rule s lr e = Raise ZeroDivisionError st ->
         total_epochs_per_period s = 0%Z))
  /\
  (forall (s : @self exact) (lr : @LearningRule.t exact) (e : Z),
     total_epochs_per_period s <> 0%Z ->
     exists h s' lr', @update_learning_rule exact s lr e = Ok (h, s', lr'))
  /\
  (forall (cos : float -> float) (mn mx : float) (P : Z) (d x : float)
          (lr : @LearningRule.t (binary64 cos)),
     (P < 0)%Z ->
     @update_learning_rule (binary64 cos) (@init (binary64 cos) mn mx P d x) lr 0 =
       Ok ((mn + 0.5 * (mx - mn) * (1 + cos (Binary64.pi * (-0))))%float,
           @set_position (binary64 cos) (@init (binary64 cos) mn mx P d x) 1 0,
           lr)).
Proof.
  split; [reflexivity |]. split; [| split].
  - intros A s lr e. split.
    + apply update_zero_period.
    + intros st Hu.
      destruct (update_exceptions s lr e Hu) as [(_ & HP & _) | (Hx & _)];
        [exact HP | contradiction].
  - apply exact_update_returns.
  - intros cos mn mx P d x lr HP.
    rewrite update_nonzero_period by (cbn; lia).
    cbn [tNext init int_eq_num total_epochs_per_period].
    replace (0 =? P)%Z with false by (symmetry; apply Z.eqb_neq; lia).
    rewrite Z.mod_0_l by lia.
    change (@int_truediv (binary64 cos)) with Binary64.int_truediv.
    change (@trunc (binary64 cos)) with Binary64.trunc.
    assert (Hz : Binary64.int_truediv 0 P = Some (-0)%float)
      by (destruct P; try lia; reflexivity).
    rewrite Hz. change (Binary64.trunc (-0)) with (Some 0%Z).
    reflexivity.
Qed.

Lemma C9_witness :
  @update_learning_rule (binary64 Scenario.cos_at_scenario_points)
    (@init (binary64 Scenario.cos_at_scenario_points) 0%float 1%float (-10)
       1%float 1%float)
    (Scenario.rule_binary64 Scenario.cos_at_scenario_points) 0 =
    Ok ((0 + 0.5 * (1 - 0) *
         (1 + Scenario.cos_at_scenario_points (Binary64.pi * (-0))))%float,
        @set_position (binary64 Scenario.cos_at_scenario_points)
          (@init (binary64 Scenario.cos_at_scenario_points) 0%float 1%float (-10)
       1%float 1%float) 1 0,
        Scenario.rule_binary64 Scenario.cos_at_scenario_points).
Proof.
  apply (proj2 (proj2 (proj2 C9_raises_iff_zero_period))
           Scenario.cos_at_scenario_points 0%float 1%float (-10)%Z 1%float
           1%float (Scenario.rule_binary64 Scenario.cos_at_scenario_points)).
  lia.
Defined.

(** C9 fails as stated: with period -10 the first call, at epoch 0, returns
    the rate 1 and raises nothing. *)
Lemma C9_counterexample :
  @update_learning_rule exact Scenario.negative_period_exact Scenario.rule_exact 0 =
    Ok (1%R, @set_position exact Scenario.negative_period_exact 1 0,
        Scenario.rule_exact).
Proof.
  rewrite exact_update_plain.
  - cbn [Scenario.negative_period_exact init total_epochs_per_period].
    change (0 mod -10)%Z with 0%Z. change (Z.quot 0 (-10)) with 0%Z.
    replace (IZR 0 / IZR (-10))%R with 0%R by (unfold Rdiv; ring).
    rewrite exact_cosine_rate_peak. reflexivity.
  - cbn. lia.
  - cbn [Scenario.negative_period_exact init tNext exact_value]. lra.
Qed.

(** ** The first call, at epoch 0 *)

(** C1 (as amended).  For a positive period the first call, at epoch 0,
    fires no restart and calls no [reset()], runs the discount loop zero
    times, evaluates the formula at position 0 where the cosine term is 1,
    and leaves [tCur = 1], [t = 0].  In exact arithmetic the value returned is
    [max_learning_rate]; in binary64 it is
    [min + 0.5 * (max - min) * 2] with each operation rounded. *)
Theorem C1_first_update_at_epoch_zero :
  (forall (mn mx : R) (P : Z) (d x : R) (lr : @LearningRule.t exact),
     (0 < P)%Z ->
     @update_learning_rule exact (@init exact mn mx P d x) lr 0 =
       Ok (mx, @set_position exact (@init exact mn mx P d x) 1 0, lr))
  /\
  (forall (cos : float -> float) (mn mx : float) (P : Z) (d x : float)
          (lr : @LearningRule.t (binary64 cos)),
     cos 0%float = 1%float ->
     (0 < P)%Z ->
     @update_learning_rule (binary64 cos) (@init (binary64 cos) mn mx P d x) lr 0 =
       Ok ((mn + 0.5 * (mx - mn) * 2)%float,
           @set_position (binary64 cos) (@init (binary64 cos) mn mx P d x) 1 0,
           lr)).
Proof.
  split.
  - intros mn mx P d x lr HP.
    rewrite exact_update_plain.
    + cbn [init total_epochs_per_period].
      rewrite Z.mod_0_l by lia. rewrite Z.quot_0_l by lia.
      replace (IZR 0 / IZR P)%R with 0%R by (unfold Rdiv; ring).
      rewrite exact_cosine_rate_peak. reflexivity.
    + cbn. lia.
    + cbn [init tNext exact_value]. intros E. apply eq_IZR in E. lia.
  - intros cos mn mx P d x lr Hcos HP.
    apply binary64_first_update; assumption.
Qed.

Lemma C1_witness :
  @update_learning_rule exact Scenario.plain_exact Scenario.rule_exact 0 =
    Ok (1%R, @set_position exact Scenario.plain_exact 1 0, Scenario.rule_exact).
Proof.
  apply (proj1 C1_first_update_at_epoch_zero 0%R 1%R 10%Z 1%R 1%R
           Scenario.rule_exact).
  lia.
Defined.

(** The binary64 half of C1 at a typical configuration: minimum 0.001,
    maximum 0.01, period 10.  The first call returns the float above 0.01. *)
Lemma binary64_first_update_typical (cos : float -> float)
    (lr : @LearningRule.t (binary64 cos)) :
  cos 0%float = 1%float ->
  @update_learning_rule (binary64 cos) (Scenario.typical_binary64 cos) lr 0 =
    Ok (0.010000000000000002%float,
        @set_position (binary64 cos) (Scenario.typical_binary64 cos) 1 0, lr).
Proof.
  intros Hcos. unfold Scenario.typical_binary64.
  rewrite (binary64_first_update Hcos) by lia. reflexivity.
Qed.

(** C1 fails as stated: the configuration [min_rate = 0.001],
    [max_rate = 0.01], period 10 is valid, yet it is not the case that the
    first call returns [max_rate] whenever [cos] is 1 at zero.  By the lemma
    above it returns 0.010000000000000002 instead: in binary64 the sum
    [0.001 + (0.01 - 0.001)] rounds to the next float up. *)
Lemma C1_counterexample :
  PrimFloat.leb 0.001 0.01 = true
  /\ ~ (forall cos : float -> float,
          cos 0%float = 1%float ->
          exists s' lr',
            @update_learning_rule (binary64 cos) (Scenario.typical_binary64 cos)
              (Scenario.rule_binary64 cos) 0 =
              Ok (0.01%float, s', lr')).
Proof.
  split; [reflexivity |].
  intros Hall.
  destruct (Hall (fun _ => 1%float) eq_refl) as (s' & lr' & Hu).
  rewrite binary64_first_update_typical in Hu by reflexivity.
  pose proof (f_equal (fun r => match r with
                               | Ok (h, _, _) => PrimFloat.eqb h 0.01
                               | Raise _ _ => true
                               end) Hu) as B.
  cbv beta iota in B. vm_compute in B. discriminate B.
Qed.

(** ** Running several epochs *)
Section Runs.
Context `{PyFloat}.

Lemma run_cons_ok (s s' s'' : self) (lr lr' lr'' : LearningRule.t) (e : Z)
    (rest : list Z) (h : F) (hs : list F) :
  update_learning_rule s lr e = Ok (h, s', lr') ->
  run s' lr' rest = Ok (hs, s'', lr'') ->
  run s lr (e :: rest) = Ok (h :: hs, s'', lr'').
Proof.
  intros Hu Hr. cbn [run]. rewrite Hu. cbn [bind]. rewrite Hr. reflexivity.
Qed.

Lemma run_cons_raise (s : self) (lr : LearningRule.t) (e : Z) (rest : list Z)
    (x : exn) (st : self * LearningRule.t) :
  update_learning_rule s lr e = Raise x st ->
  run s lr (e :: rest) = Raise x st.
Proof. intros Hu. cbn [run]. rewrite Hu. reflexivity. Qed.

(** The state a run leaves is the state its remaining epochs leave after the
    first call, or the state of the first call if that one raised. *)
Lemma run_cons_state (s : self) (lr : LearningRule.t) (e : Z) (rest : list Z) :
  state_after (run s lr (e :: rest)) =
    match update_learning_rule s lr e with
    | Ok (_, s', lr') => state_after (run s' lr' rest)
    | Raise _ st => st
    end.
Proof.
  cbn [run].
  destruct (update_learning_rule s lr e) as [[[h s'] lr'] | x st];
    cbn [bind]; [| reflexivity].
  destruct (run s' lr' rest) as [[[hs s3] lr3] | x st]; reflexivity.
Qed.

Lemma run_cons_inv (s s'' : self) (lr lr'' : LearningRule.t) (e : Z)
    (rest : list Z) (rates : list F) :
  run s lr (e :: rest) = Ok (rates, s'', lr'') ->
  exists h s' lr' hs,
    update_learning_rule s lr e = Ok (h, s', lr')
    /\ run s' lr' rest = Ok (hs, s'', lr'')
    /\ rates = h :: hs.
Proof.
  cbn [run]. intros Hr.
  destruct (update_learning_rule s lr e) as [[[h s'] lr'] | x st] eqn:Hu;
    cbn [bind] in Hr; [| discriminate Hr].
  destruct (run s' lr' rest) as [[[hs s3] lr3] | x st] eqn:Hrest;
    cbn [bind] in Hr; [| discriminate Hr].
  inversion Hr; subst. exists h, s', lr', hs. repeat split. exact Hrest.
Qed.

Lemma run_snoc_ok (es : list Z) :
  forall (s s' s'' : self) (lr lr' lr'' : LearningRule.t) (e : Z) (h : F) (hs : list F),
    run s lr es = Ok (hs, s', lr') ->
    update_learning_rule s' lr' e = Ok (h, s'', lr'') ->
    run s lr (es ++ [e]) = Ok (hs ++ [h], s'', lr'').
Proof.
  induction es as [| e0 rest IH]; intros s s' s'' lr lr' lr'' e h hs Hr Hu.
  - cbn [run] in Hr. inversion Hr; subst. cbn [app].
    eapply run_cons_ok; [exact Hu | reflexivity].
  - destruct (run_cons_inv _ _ _ _ Hr) as (h0 & s0 & lr0 & hs0 & Hu0 & Hr0 & ->).
    cbn [app]. eapply run_cons_ok; [exact Hu0 |].
    eapply IH; eassumption.
Qed.
End Runs.

Section ExactSteps.
Open Scope R_scope.

Lemma exact_plain_step (s s' : @self exact) (lr : @LearningRule.t exact)
    (e P m q tc : Z) :
  total_epochs_per_period s = P -> P <> 0%Z ->
  (e mod P)%Z = m -> Z.quot e P = q -> (m + 1)%Z = tc ->
  IZR e <> exact_value (tNext s) ->
  @set_position exact s tc q = s' ->
  @update_learning_rule exact s lr e =
    Ok (@cosine_rate exact s (@effective_max_learning_rate exact s q) (IZR m / IZR P),
        s', lr).
Proof.
  intros HP HP0 Hm Hq Htc Hne Hs. subst P m q tc s'.
  apply exact_update_plain; assumption.
Qed.

Lemma exact_restart_step (s s' : @self exact) (lr : @LearningRule.t exact)
    (e P m q q1 : Z) :
  total_epochs_per_period s = P -> P <> 0%Z ->
  (e mod P)%Z = m -> Z.quot e P = q -> (q + 1)%Z = q1 ->
  IZR e = exact_value (tNext s) ->
  @set_position exact
    (@set_period exact s
       (@Float exact (exact_value (tNext s) +
                      exact_value (tPeriod s) * period_iteration_expansion_factor s))
       (@Float exact (exact_value (tPeriod s) * period_iteration_expansion_factor s)))
    1 q1 = s' ->
  @update_learning_rule exact s lr e =
    Ok (@effective_max_learning_rate exact s q, s', LearningRule.reset lr).
Proof.
  intros HP HP0 Hm Hq Hq1 He Hs. subst P m q q1 s'.
  rewrite (exact_update_restart s lr e HP0 He).
  rewrite exact_cosine_rate_peak. reflexivity.
Qed.

Lemma cos_quarter_turn : cos (PI * (5 / 10)) = 0.
Proof. replace (PI * (5 / 10)) with (PI / 2) by field. apply cos_PI2. Qed.
End ExactSteps.

(** Symbolic execution of concrete runs in exact arithmetic: projections of
    the state are reduced, integer parts are computed, and the restart test
    is decided by [lra]. *)
Ltac exact_norm :=
  cbn [Scenario.plain_exact Scenario.discounted_exact Scenario.shrinking_exact
       Scenario.sunk_peak_exact Scenario.rule_exact init set_position set_period
       tNext tPeriod tCur t total_epochs_per_period min_learning_rate
       max_learning_rate max_learning_rate_discount_factor
       period_iteration_expansion_factor exact_value
       fadd fsub fmul half one math_cos math_pi F exact
       LearningRule.reset LearningRule.reset_calls LearningRule.learning_rate].

Ltac exact_plain :=
  eapply exact_plain_step;
  [ exact_norm; reflexivity | lia | vm_compute; reflexivity
  | vm_compute; reflexivity | vm_compute; reflexivity
  | exact_norm; lra | unfold set_position, set_period; exact_norm; reflexivity ].

Ltac exact_restart :=
  eapply exact_restart_step;
  [ exact_norm; reflexivity | lia | vm_compute; reflexivity
  | vm_compute; reflexivity | vm_compute; reflexivity
  | exact_norm; lra | unfold set_position, set_period; exact_norm; reflexivity ].

Ltac exact_run_plain := eapply run_cons_ok; [ exact_plain | ].

Ltac list_epochs :=
  repeat match goal with
  | |- context [epochs ?n] =>
      let l := eval vm_compute in (epochs n) in change (epochs n) with l
  | |- context [epoch_range ?a ?n] =>
      let l := eval vm_compute in (epoch_range a n) in
      change (epoch_range a n) with l
  end.

Ltac exact_rate :=
  unfold cosine_rate, effective_max_learning_rate; exact_norm;
  repeat match goal with
  | |- context [Z.to_nat ?z] =>
      let n := eval vm_compute in (Z.to_nat z) in change (Z.to_nat z) with n
  end;
  cbn [discount_loop]; exact_norm.

(** ** The two concrete scenarios *)
Section Scenarios.
Open Scope R_scope.

Lemma plain_scenario_exact :
  @plain_scenario exact Scenario.plain_exact Scenario.rule_exact 1 (/ 2).
Proof.
  unfold plain_scenario. do 3 eexists. split.
  { list_epochs. do 10 exact_run_plain. reflexivity. }
  split.
  { cbn [nth_error]. f_equal. exact_rate.
    replace (0 / 10) with 0 by (unfold Rdiv; ring).
    rewrite Rmult_0_r, cos_0. lra. }
  split.
  { cbn [nth_error]. f_equal. exact_rate. rewrite cos_quarter_turn. lra. }
  etransitivity; [ exact_restart | ].
  exact_rate. replace (1 * 1) with 1 by ring. reflexivity.
Qed.

Lemma discounted_scenario_exact :
  @discounted_scenario exact Scenario.discounted_exact Scenario.rule_exact
    (/ 2) (/ 4).
Proof.
  unfold discounted_scenario. do 6 eexists. split.
  { list_epochs. do 10 exact_run_plain. reflexivity. }
  split.
  { etransitivity; [ exact_restart | ].
    exact_rate. replace (1 * / 2) with (/ 2) by field. reflexivity. }
  split.
  { list_epochs. do 9 exact_run_plain. reflexivity. }
  etransitivity; [ exact_restart | ].
  exact_rate. replace (1 * / 2 * / 2) with (/ 4) by field. reflexivity.
Qed.
End Scenarios.

(** Evaluate the left-hand side of an equation on the virtual machine. *)
Ltac vm_eval_lhs :=
  match goal with
  | |- ?l = _ =>
      let v := eval vm_compute in l in
      let E := fresh "E" in
      assert (E : l = v) by (exact (@eq_refl _ v <: l = v));
      rewrite E; clear E
  end.

Section Binary64Scenarios.
Variable cos : float -> float.
Hypothesis cos_zero : cos 0%float = 1%float.
(** [math.cos(math.pi * 0.5)] is about [6.1e-17], below half an ulp of 1. *)
Hypothesis cos_half_pi : (1 + cos (Binary64.pi * 0.5) = 1)%float.

Lemma plain_scenario_binary64 :
  @plain_scenario (binary64 cos) (Scenario.plain_binary64 cos)
    (Scenario.rule_binary64 cos) 1%float 0.5%float.
Proof.
  pose proof cos_half_pi as Hh.
  change (Binary64.pi * 0.5)%float with 0x1.921fb54442d18p+0%float in Hh.
  unfold plain_scenario.
  let r := eval vm_compute in
      (@run (binary64 cos) (Scenario.plain_binary64 cos)
         (Scenario.rule_binary64 cos) (epochs 10)) in
  match r with Ok (?rs, ?s, _) => exists rs, s end.
  let r := eval vm_compute in
      (@run (binary64 cos) (Scenario.plain_binary64 cos)
         (Scenario.rule_binary64 cos) (epochs 11)) in
  match r with Ok (_, ?s, _) => exists s end.
  split. { vm_eval_lhs. reflexivity. }
  split. { cbn [nth_error]. rewrite cos_zero. reflexivity. }
  split. { cbn [nth_error]. rewrite Hh. reflexivity. }
  vm_eval_lhs. rewrite cos_zero. reflexivity.
Qed.

Lemma discounted_scenario_binary64 :
  @discounted_scenario (binary64 cos) (Scenario.discounted_binary64 cos)
    (Scenario.rule_binary64 cos) 0.5%float 0.25%float.
Proof.
  unfold discounted_scenario.
  let r := eval vm_compute in
      (@run (binary64 cos) (Scenario.discounted_binary64 cos)
         (Scenario.rule_binary64 cos) (epochs 10)) in
  match r with Ok (?rs, ?s, _) => exists rs, s end.
  let r := eval vm_compute in
      (@run (binary64 cos) (Scenario.discounted_binary64 cos)
         (Scenario.rule_binary64 cos) (epochs 11)) in
  match r with Ok (_, ?s, _) => exists s end.
  let r := eval vm_compute in
      (@run (binary64 cos) (Scenario.discounted_binary64 cos)
         (Scenario.rule_binary64 cos) (epochs 20)) in
  match r with Ok (?rs, ?s, _) => exists (skipn 11 rs), s end.
  let r := eval vm_compute in
      (@run (binary64 cos) (Scenario.discounted_binary64 cos)
         (Scenario.rule_binary64 cos) (epochs 21)) in
  match r with Ok (_, ?s, _) => exists s end.
  split. { vm_eval_lhs. reflexivity. }
  split. { vm_eval_lhs. rewrite cos_zero. reflexivity. }
  split. { vm_eval_lhs. reflexivity. }
  vm_eval_lhs. rewrite cos_zero. reflexivity.
Qed.
End Binary64Scenarios.

(** C2.  Both scenarios of the specification hold, in exact arithmetic and
    in binary64 alike: with discount 1.0 the calls at epochs 0, 5 and 10
    return 1.0, 0.5 and 1.0, the last one after the first [reset()]; with
    discount 0.5 the calls at epochs 10 and 20 return 0.5 and 0.25, each
    after one more [reset()].  For binary64 the C library's [cos] must
    return 1 at zero and a value that vanishes when added to 1 at
    [math.pi * 0.5]. *)
Theorem C2_concrete_scenarios :
  @plain_scenario exact Scenario.plain_exact Scenario.rule_exact 1%R (/ 2)%R
  /\ @discounted_scenario exact Scenario.discounted_exact Scenario.rule_exact
       (/ 2)%R (/ 4)%R
  /\ (forall cos : float -> float,
        cos 0%float = 1%float ->
        (1 + cos (Binary64.pi * 0.5) = 1)%float ->
        @plain_scenario (binary64 cos) (Scenario.plain_binary64 cos)
          (Scenario.rule_binary64 cos) 1%float 0.5%float
        /\ @discounted_scenario (binary64 cos) (Scenario.discounted_binary64 cos)
             (Scenario.rule_binary64 cos) 0.5%float 0.25%float).
Proof.
  split; [exact plain_scenario_exact |].
  split; [exact discounted_scenario_exact |].
  intros cos H0 Hh. split.
  - apply plain_scenario_binary64; assumption.
  - apply discounted_scenario_binary64; assumption.
Qed.

Lemma C2_witness :
  @plain_scenario (binary64 Scenario.cos_at_scenario_points)
    (Scenario.plain_binary64 Scenario.cos_at_scenario_points)
    (Scenario.rule_binary64 Scenario.cos_at_scenario_points) 1%float 0.5%float
  /\ @discounted_scenario (binary64 Scenario.cos_at_scenario_points)
       (Scenario.discounted_binary64 Scenario.cos_at_scenario_points)
       (Scenario.rule_binary64 Scenario.cos_at_scenario_points)
       0.5%float 0.25%float.
Proof.
  apply (proj2 (proj2 C2_concrete_scenarios) Scenario.cos_at_scenario_points).
  - reflexivity.
  - reflexivity.
Defined.

(** ** Position in the cycle under period expansion *)

(** C4, evaluated where it breaks.  Minimum 0, maximum 1, period 10,
    discount 1.0, expansion 2.0, epochs 0, 1, ..., 20 in order.  After the
    twenty calls for epochs 0..19 there has been one [reset()] (at epoch 10),
    the current period is 20 and the next restart is due at epoch 30; the
    call at epoch 19 used position 9.  The call at epoch 20 calls no
    [reset()], yet it evaluates the formula at position 0 again and returns
    the peak: the position is [epoch_number % 10], not the number of epochs
    since the last restart. *)
Theorem C4_position_wraps_without_restart :
  forall cos : float -> float,
    exists rates s20 lr20 s21,
      @run (binary64 cos) (Scenario.expanding_binary64 cos)
        (Scenario.rule_binary64 cos) (epochs 20) = Ok (rates, s20, lr20)
      /\ LearningRule.reset_calls lr20 = 1%nat
      /\ tPeriod s20 = @Float (binary64 cos) 20%float
      /\ tNext s20 = @Float (binary64 cos) 30%float
      /\ tCur s20 = (9 + 1)%Z
      /\ @update_learning_rule (binary64 cos) s20 lr20 20 =
           Ok (@cosine_rate (binary64 cos) s20 1%float 0%float, s21, lr20)
      /\ tCur s21 = (0 + 1)%Z.
Proof.
  intros cos.
  let r := eval vm_compute in
      (@run (binary64 cos) (Scenario.expanding_binary64 cos)
         (Scenario.rule_binary64 cos) (epochs 20)) in
  match r with Ok (?rs, ?s, ?l) => exists rs, s, l end.
  let r := eval vm_compute in
      (@run (binary64 cos) (Scenario.expanding_binary64 cos)
         (Scenario.rule_binary64 cos) (epochs 21)) in
  match r with Ok (_, ?s, _) => exists s end.
  split. { vm_eval_lhs. reflexivity. }
  do 4 (split; [reflexivity |]).
  split. { vm_eval_lhs. reflexivity. }
  reflexivity.
Qed.

(** ** The restart test and the rate at a restart *)
Section Binary64Restart.
Variable cos : float -> float.
Hypothesis cos_zero : cos 0%float = 1%float.

(** Minimum 0.001, maximum 0.01, period 10, no discount, no expansion: the
    ten calls for epochs 0..9 fire no restart, and the call at epoch 10 does
    and returns the float above the peak 0.01. *)
Lemma binary64_restart_typical :
  exists rates s11,
    @run (binary64 cos) (Scenario.typical_binary64 cos)
      (Scenario.rule_binary64 cos) (epochs 10) =
      Ok (rates, @set_position (binary64 cos) (Scenario.typical_binary64 cos) 10 0,
          Scenario.rule_binary64 cos)
    /\ @update_learning_rule (binary64 cos)
         (@set_position (binary64 cos) (Scenario.typical_binary64 cos) 10 0)
         (Scenario.rule_binary64 cos) 10 =
       Ok (0.010000000000000002%float, s11,
           LearningRule.reset (Scenario.rule_binary64 cos)).
Proof.
  let r := eval vm_compute in
      (@run (binary64 cos) (Scenario.typical_binary64 cos)
         (Scenario.rule_binary64 cos) (epochs 10)) in
  match r with Ok (?rs, _, _) => exists rs end.
  let r := eval vm_compute in
      (@run (binary64 cos) (Scenario.typical_binary64 cos)
         (Scenario.rule_binary64 cos) (epochs 11)) in
  match r with Ok (_, ?s, _) => exists s end.
  split. { vm_eval_lhs. reflexivity. }
  vm_eval_lhs. rewrite cos_zero. reflexivity.
Qed.
End Binary64Restart.

(** C3 (as amended).  Whatever a call does, it applies [reset()] at most
    once, and only if the test [epoch_number == self.tNext] succeeded; a call
    that returns has applied [reset()] exactly once if the test succeeded and
    not at all if it failed, and after a successful test it has evaluated
    the formula at position 0 (leaving [tCur = 0 + 1]) with the maximum
    discounted [int(epoch_number / period)] times, that is multiplied that
    many times by the discount factor.  The test is equality of
    the numbers denoted: of two integers, of an integer and a real, of an
    integer and the value of a finite binary64 float.  In exact arithmetic a
    call with a non-zero period always returns, and at a restart it returns
    [max * discount ^ int(epoch / period)], the discounted peak itself.  In
    binary64, for a positive period and a [cos] that is 1 at zero, a restart
    whose conversions do not overflow returns
    [min + 0.5 * (peak - min) * 2] with each operation rounded, where [peak]
    is the maximum multiplied [int(epoch / period)] times by the discount
    factor. *)
Theorem C3_reset_iff_restart_epoch :
  (forall (A : PyFloat) (s : self) (lr : LearningRule.t) (e : Z),
     let P := total_epochs_per_period s in
     let lr' := snd (state_after (update_learning_rule s lr e)) in
     (lr' = lr \/ lr' = LearningRule.reset lr)
     /\ (lr' = LearningRule.reset lr -> int_eq_num e (tNext s) = true)
     /\ (forall h s' lr'',
           update_learning_rule s lr e = Ok (h, s', lr'') ->
           if int_eq_num e (tNext s)
           then lr'' = LearningRule.reset lr
                /\ LearningRule.reset_calls lr'' = S (LearningRule.reset_calls lr)
                /\ tCur s' = (0 + 1)%Z
                /\ exists q c x0,
                     int_truediv e P = Some q /\ trunc q = Some c
                     /\ int_truediv 0 P = Some x0
                     /\ h = cosine_rate s (effective_max_learning_rate s c) x0
           else lr'' = lr))
  /\
  ((forall (A : PyFloat) (s : self) (c : Z),
      effective_max_learning_rate s c =
        Nat.iter (Z.to_nat c)
          (fun a => fmul a (max_learning_rate_discount_factor s))
          (max_learning_rate s))
   /\ (forall (A : PyFloat) (e z : Z), int_eq_num e (Int z) = true <-> e = z)
   /\ (forall (e : Z) (x : R),
         @int_eq_num exact e (@Float exact x) = true <-> IZR e = x)
   /\ (forall (cos : float -> float) (e : Z) (x : float),
         @int_eq_num (binary64 cos) e (@Float (binary64 cos) x) = true
         <-> binary64_value x = Some (IZR e)))
  /\
  (forall (s : @self exact) (lr : @LearningRule.t exact) (e : Z),
     total_epochs_per_period s <> 0%Z ->
     (IZR e = exact_value (tNext s) ->
      exists s',
        @update_learning_rule exact s lr e =
          Ok ((max_learning_rate s *
               max_learning_rate_discount_factor s
                 ^ Z.to_nat (Z.quot e (total_epochs_per_period s)))%R,
              s', LearningRule.reset lr)
        /\ tCur s' = (0 + 1)%Z)
     /\ (IZR e <> exact_value (tNext s) ->
         exists h s', @update_learning_rule exact s lr e = Ok (h, s', lr)))
  /\
  (forall (cos : float -> float) (s : @self (binary64 cos))
          (lr : @LearningRule.t (binary64 cos)) (e c : Z) (q : float)
          (p' n' : @num (binary64 cos)),
     cos 0%float = 1%float ->
     (0 < total_epochs_per_period s)%Z ->
     @int_eq_num (binary64 cos) e (tNext s) = true ->
     Binary64.int_truediv e (total_epochs_per_period s) = Some q ->
     Binary64.trunc q = Some c ->
     @num_mul_float (binary64 cos) (tPeriod s)
       (period_iteration_expansion_factor s) = Ok p' ->
     @num_add (binary64 cos) (tNext s) p' = Ok n' ->
     exists s',
       @update_learning_rule (binary64 cos) s lr e =
         Ok ((min_learning_rate s +
              0.5 * (Nat.iter (Z.to_nat c)
                       (fun a => a * max_learning_rate_discount_factor s)
                       (max_learning_rate s)
                     - min_learning_rate s) * 2)%float,
             s', LearningRule.reset lr)
       /\ tCur s' = (0 + 1)%Z).
Proof.
  split; [| split; [| split]].
  - intros A s lr e P lr'. subst P lr'.
    assert (Hne : lr = LearningRule.reset lr -> int_eq_num e (tNext s) = true).
    { intros E. apply (f_equal LearningRule.reset_calls) in E.
      cbn [LearningRule.reset LearningRule.reset_calls] in E. lia. }
    destruct (Z.eq_dec (total_epochs_per_period s) 0) as [HP | HP].
    + rewrite (update_zero_period s lr e HP). cbn [state_after snd].
      split; [auto | split; [exact Hne |]]. intros h s' lr'' Hu. discriminate Hu.
    + update_cases s lr e HP; cbn [state_after snd];
        (split; [auto | split; [first [exact Hne | reflexivity | auto] |]]);
        intros h s' lr'' Hu; inversion Hu; subst; try reflexivity.
      repeat split. exists q, c, x0. repeat split; first [assumption | reflexivity].
  - split; [| split; [| split]].
    + intros A s c. apply discount_loop_iter.
    + intros A e z. cbn [int_eq_num]. apply Z.eqb_eq.
    + intros e x. apply (exact_int_eq_num_iff e (@Float exact x)).
    + intros cos e x. cbn [int_eq_num int_eqb binary64].
      apply binary64_int_eqb_iff.
  - intros s lr e HP. split; intros E.
    + rewrite (exact_update_restart s lr e HP E).
      rewrite exact_cosine_rate_peak, exact_effective_max_form.
      eexists. split; reflexivity.
    + rewrite (exact_update_plain s lr e HP E). eauto.
  - intros cos s lr e c q p' n' Hcos HP He Hq Hc Hp Hn.
    rewrite (binary64_update_restart Hcos s lr e HP He Hq Hc Hp Hn).
    unfold effective_max_learning_rate.
    rewrite (@discount_loop_iter (binary64 cos)).
    eexists. split; reflexivity.
Qed.

Lemma C3_witness :
  exists s',
    @update_learning_rule (binary64 Scenario.cos_at_scenario_points)
      (@set_position (binary64 Scenario.cos_at_scenario_points)
         (Scenario.typical_binary64 Scenario.cos_at_scenario_points) 10 0)
      (Scenario.rule_binary64 Scenario.cos_at_scenario_points) 10 =
      Ok ((0.001 + 0.5 * (Nat.iter (Z.to_nat 1) (fun a => a * 1) 0.01 - 0.001) * 2)%float,
          s',
          LearningRule.reset (Scenario.rule_binary64 Scenario.cos_at_scenario_points))
    /\ tCur s' = (0 + 1)%Z.
Proof.
  apply (proj2 (proj2 (proj2 C3_reset_iff_restart_epoch))
           Scenario.cos_at_scenario_points
           (@set_position (binary64 Scenario.cos_at_scenario_points)
              (Scenario.typical_binary64 Scenario.cos_at_scenario_points) 10 0)
           (Scenario.rule_binary64 Scenario.cos_at_scenario_points)
           10%Z 1%Z 1%float
           (@Float (binary64 Scenario.cos_at_scenario_points) 10%float)
           (@Float (binary64 Scenario.cos_at_scenario_points) 20%float));
    first [reflexivity | cbn; lia].
Defined.

(** C3 fails as stated: minimum 0.001, maximum 0.01, period 10, discount
    1.0.  The peak of every cycle is [0.01 * 1.0 = 0.01], yet it is not the
    case that the restart call at epoch 10, which follows the calls for
    epochs 0..9, returns 0.01 whenever [cos] is 1 at zero.  By the lemma
    above it returns 0.010000000000000002. *)
Lemma C3_counterexample :
  (0.01 * 1 = 0.01)%float
  /\ ~ (forall cos : float -> float,
          cos 0%float = 1%float ->
          forall rates s10 lr10 h s11 lr11,
            @run (binary64 cos) (Scenario.typical_binary64 cos)
              (Scenario.rule_binary64 cos) (epochs 10) = Ok (rates, s10, lr10) ->
            @int_eq_num (binary64 cos) 10 (tNext s10) = true ->
            @update_learning_rule (binary64 cos) s10 lr10 10 = Ok (h, s11, lr11) ->
            h = 0.01%float).
Proof.
  split; [reflexivity |].
  intros Hall.
  destruct (@binary64_restart_typical (fun _ => 1%float) eq_refl)
    as (rates & s11 & Hr & Hu).
  pose proof (Hall (fun _ => 1%float) eq_refl _ _ _ _ _ _ Hr eq_refl Hu) as E.
  apply (f_equal (fun h => PrimFloat.eqb h 0.01)) in E.
  vm_compute in E. discriminate E.
Qed.

(** ** Period and next restart epoch *)
Section PeriodFields.
Context `{PyFloat}.

(** What a call that returns has done to the period bookkeeping. *)
Lemma update_period_fields (s s' : self) (lr lr' : LearningRule.t) (e : Z)
    (h : F) :
  update_learning_rule s lr e = Ok (h, s', lr') ->
  hyperparameters s' = hyperparameters s
  /\ if int_eq_num e (tNext s)
     then num_mul_float (tPeriod s) (period_iteration_expansion_factor s) =
            Ok (tPeriod s')
          /\ num_add (tNext s) (tPeriod s') = Ok (tNext s')
          /\ lr' = LearningRule.reset lr
     else tPeriod s' = tPeriod s /\ tNext s' = tNext s /\ lr' = lr.
Proof.
  destruct (Z.eq_dec (total_epochs_per_period s) 0) as [HP | HP].
  - rewrite (update_zero_period s lr e HP). intros Hu. discriminate Hu.
  - update_cases s lr e HP; intros Hu; inversion Hu; subst;
      (split; [reflexivity |]); cbn [set_position set_period tPeriod tNext];
      repeat split; assumption.
Qed.

(** The same for every outcome: a call that raises inside the restart branch
    may have written the new period only. *)
Lemma update_period_fields_any (s : self) (lr : LearningRule.t) (e : Z) :
  let s' := fst (state_after (update_learning_rule s lr e)) in
  (tPeriod s' = tPeriod s /\ tNext s' = tNext s)
  \/ (int_eq_num e (tNext s) = true
      /\ num_mul_float (tPeriod s) (period_iteration_expansion_factor s) =
           Ok (tPeriod s')
      /\ (tNext s' = tNext s \/ num_add (tNext s) (tPeriod s') = Ok (tNext s'))).
Proof.
  cbv zeta.
  destruct (Z.eq_dec (total_epochs_per_period s) 0) as [HP | HP].
  - rewrite (update_zero_period s lr e HP). left. split; reflexivity.
  - update_cases s lr e HP; cbn [state_after fst set_position set_period tPeriod tNext];
      auto 6.
Qed.
End PeriodFields.

Section PeriodGrowth.
Open Scope R_scope.

(** One call in exact arithmetic and the period bookkeeping. *)
Lemma exact_update_period_fields (s : @self exact) (lr : @LearningRule.t exact)
    (e : Z) :
  total_epochs_per_period s <> 0%Z ->
  exists h s' lr',
    @update_learning_rule exact s lr e = Ok (h, s', lr')
    /\ hyperparameters s' = hyperparameters s
    /\ (@int_eq_num exact e (tNext s) = true ->
        exact_value (tPeriod s') =
          exact_value (tPeriod s) * period_iteration_expansion_factor s
        /\ exact_value (tNext s') =
             exact_value (tNext s) + exact_value (tPeriod s')
        /\ lr' = LearningRule.reset lr)
    /\ (@int_eq_num exact e (tNext s) = false ->
        tPeriod s' = tPeriod s /\ tNext s' = tNext s /\ lr' = lr).
Proof.
  intros HP.
  destruct (Req_dec_T (IZR e) (exact_value (tNext s))) as [E | N].
  - rewrite (exact_update_restart s lr e HP E).
    rewrite (exact_int_eq_num_true e (tNext s) E).
    do 3 eexists. split; [reflexivity |]. split; [reflexivity |].
    split; intros X; [| discriminate X]. repeat split.
  - rewrite (exact_update_plain s lr e HP N).
    rewrite (exact_int_eq_num_false e (tNext s) N).
    do 3 eexists. split; [reflexivity |]. split; [reflexivity |].
    split; intros X; [discriminate X |]. repeat split.
Qed.

(** Invariant of a run with a positive period and a positive expansion
    factor: the current period stays positive, stays at least the base
    period when the factor is at least 1, and is still the integer base
    period as long as no [reset()] was called. *)
Lemma exact_run_period_invariant (es : list Z) :
  forall (s : @self exact) (lr : @LearningRule.t exact) (P : Z) (x : R),
    total_epochs_per_period s = P -> period_iteration_expansion_factor s = x ->
    (0 < P)%Z -> 0 < x ->
    0 < exact_value (tPeriod s) ->
    (1 <= x -> IZR P <= exact_value (tPeriod s)) ->
    exists rates s' lr',
      @run exact s lr es = Ok (rates, s', lr')
      /\ total_epochs_per_period s' = P
      /\ period_iteration_expansion_factor s' = x
      /\ 0 < exact_value (tPeriod s')
      /\ (1 <= x -> IZR P <= exact_value (tPeriod s'))
      /\ (LearningRule.reset_calls lr <= LearningRule.reset_calls lr')%nat
      /\ (LearningRule.reset_calls lr' = LearningRule.reset_calls lr ->
          tPeriod s' = tPeriod s).
Proof.
  induction es as [| e rest IH]; intros s lr P x HP Hx HP0 Hx0 Hpos Hge.
  - exists [], s, lr. cbn [run]. repeat split; auto.
  - assert (HPne : total_epochs_per_period s <> 0%Z) by lia.
    destruct (exact_update_period_fields s lr e HPne)
      as (h & s1 & lr1 & Hu & Hhyp & Hyes & Hno).
    assert (HP1 : total_epochs_per_period s1 = P).
    { unfold hyperparameters in Hhyp. inversion Hhyp. congruence. }
    assert (Hx1 : period_iteration_expansion_factor s1 = x).
    { unfold hyperparameters in Hhyp. inversion Hhyp. congruence. }
    assert (Hstep : 0 < exact_value (tPeriod s1)
                    /\ (1 <= x -> IZR P <= exact_value (tPeriod s1))
                    /\ (LearningRule.reset_calls lr <= LearningRule.reset_calls lr1)%nat
                    /\ (LearningRule.reset_calls lr1 = LearningRule.reset_calls lr ->
                        tPeriod s1 = tPeriod s)).
    { destruct (@int_eq_num exact e (tNext s)).
      - destruct (Hyes eq_refl) as (Hp & _ & Hl). rewrite Hp, Hl, Hx.
        cbn [LearningRule.reset LearningRule.reset_calls].
        repeat split.
        + nra.
        + intros H1. specialize (Hge H1). nra.
        + lia.
        + intros Habs. lia.
      - destruct (Hno eq_refl) as (Hp & _ & Hl). rewrite Hp, Hl.
        repeat split; auto. }
    destruct Hstep as (Hpos1 & Hge1 & Hle1 & Hsame1).
    destruct (IH s1 lr1 P x HP1 Hx1 HP0 Hx0 Hpos1 Hge1)
      as (hs & s2 & lr2 & Hr & HP2 & Hx2 & Hpos2 & Hge2 & Hle2 & Hsame2).
    exists (h :: hs), s2, lr2. split.
    { eapply run_cons_ok; eassumption. }
    repeat split; auto.
    + lia.
    + intros Heq. rewrite Hsame2 by lia. apply Hsame1. lia.
Qed.
End PeriodGrowth.

(** C5 (as amended).  In any arithmetic, a call leaves the current period
    and the next restart epoch alone unless its restart test succeeds; then
    it multiplies the current period by the expansion factor and, unless the
    addition raises, advances the next restart epoch by the period just
    expanded.  A call that returns after a successful test has done both.
    In exact arithmetic, with a positive base period and a positive expansion
    factor, after any sequence of calls the current period is positive, it is
    still the base period if no restart has happened, it is at least the
    base period when the expansion factor is at least 1, and the next
    restart moves the next restart epoch strictly forward. *)
Theorem C5_restart_epoch_advances :
  (forall (A : PyFloat) (s : self) (lr : LearningRule.t) (e : Z),
     let s' := fst (state_after (update_learning_rule s lr e)) in
     (tPeriod s' = tPeriod s /\ tNext s' = tNext s)
     \/ (int_eq_num e (tNext s) = true
         /\ num_mul_float (tPeriod s) (period_iteration_expansion_factor s) =
              Ok (tPeriod s')
         /\ (tNext s' = tNext s
             \/ num_add (tNext s) (tPeriod s') = Ok (tNext s'))))
  /\
  (forall (A : PyFloat) (s s' : self) (lr lr' : LearningRule.t) (e : Z) (h : F),
     update_learning_rule s lr e = Ok (h, s', lr') ->
     if int_eq_num e (tNext s)
     then num_mul_float (tPeriod s) (period_iteration_expansion_factor s) =
            Ok (tPeriod s')
          /\ num_add (tNext s) (tPeriod s') = Ok (tNext s')
     else tPeriod s' = tPeriod s /\ tNext s' = tNext s)
  /\
  (forall (mn mx : R) (P : Z) (d x : R) (lr : @LearningRule.t exact) (es : list Z),
     (0 < P)%Z -> (0 < x)%R ->
     exists rates s lr',
       @run exact (@init exact mn mx P d x) lr es = Ok (rates, s, lr')
       /\ (0 < exact_value (tPeriod s))%R
       /\ (LearningRule.reset_calls lr' = LearningRule.reset_calls lr ->
           tPeriod s = @Int exact P)
       /\ ((1 <= x)%R -> (IZR P <= exact_value (tPeriod s))%R)
       /\ forall (e : Z) (lr1 : @LearningRule.t exact),
            @int_eq_num exact e (tNext s) = true ->
            exists h s1,
              @update_learning_rule exact s lr1 e = Ok (h, s1, LearningRule.reset lr1)
              /\ exact_value (tPeriod s1) = (exact_value (tPeriod s) * x)%R
              /\ exact_value (tNext s1) =
                 (exact_value (tNext s) + exact_value (tPeriod s1))%R
              /\ (exact_value (tNext s) < exact_value (tNext s1))%R).
Proof.
  split; [| split].
  - intros A s lr e. apply update_period_fields_any.
  - intros A s s' lr lr' e h Hu.
    destruct (update_period_fields s lr e Hu) as [_ Hf].
    destruct (int_eq_num e (tNext s)).
    + destruct Hf as (H1 & H2 & _). split; assumption.
    + destruct Hf as (H1 & H2 & _). split; assumption.
  - intros mn mx P d x lr es HP Hx.
    destruct (@exact_run_period_invariant es (@init exact mn mx P d x) lr P x
                eq_refl eq_refl HP Hx)
      as (rates & s & lr' & Hr & HPs & Hxs & Hpos & Hge & _ & Hsame).
    { cbn [init tPeriod exact_value]. apply IZR_lt. exact HP. }
    { intros _. cbn [init tPeriod exact_value]. apply Rle_refl. }
    exists rates, s, lr'. split; [exact Hr |].
    split; [exact Hpos |]. split; [exact Hsame |]. split; [exact Hge |].
    intros e lr1 E.
    assert (HPne : total_epochs_per_period s <> 0%Z) by lia.
    destruct (exact_update_period_fields s lr1 e HPne)
      as (h & s1 & lr2 & Hu & _ & Hyes & _).
    destruct (Hyes E) as (Hp & Hn & Hl). subst lr2.
    exists h, s1. split; [exact Hu |].
    rewrite Hxs in Hp.
    split; [exact Hp | split; [exact Hn |]].
    rewrite Hn, Hp. nra.
Qed.

Lemma C5_witness :
  exists rates s lr',
    @run exact (@init exact 0%R 1%R 10 1%R 1%R) Scenario.rule_exact (epochs 11) =
      Ok (rates, s, lr')
    /\ (0 < exact_value (tPeriod s))%R
    /\ (LearningRule.reset_calls lr' = LearningRule.reset_calls Scenario.rule_exact ->
        tPeriod s = @Int exact 10)
    /\ ((1 <= 1)%R -> (IZR 10 <= exact_value (tPeriod s))%R)
    /\ forall (e : Z) (lr1 : @LearningRule.t exact),
         @int_eq_num exact e (tNext s) = true ->
         exists h s1,
           @update_learning_rule exact s lr1 e = Ok (h, s1, LearningRule.reset lr1)
           /\ exact_value (tPeriod s1) = (exact_value (tPeriod s) * 1)%R
           /\ exact_value (tNext s1) =
              (exact_value (tNext s) + exact_value (tPeriod s1))%R
           /\ (exact_value (tNext s) < exact_value (tNext s1))%R.
Proof.
  apply (proj2 (proj2 C5_restart_epoch_advances) 0%R 1%R 10%Z 1%R 1%R
           Scenario.rule_exact (epochs 11)).
  - lia.
  - lra.
Defined.

(** C5 fails as stated: with expansion factor 1/2 (base period 10) the
    restart at epoch 10 leaves a current period of 5, below the base
    period. *)
Lemma C5_counterexample :
  exists rates s lr',
    @run exact Scenario.shrinking_exact Scenario.rule_exact (epochs 11) =
      Ok (rates, s, lr')
    /\ total_epochs_per_period s = 10%Z
    /\ exact_value (tPeriod s) = 5%R
    /\ (5 < 10)%R.
Proof.
  do 3 eexists. split.
  { list_epochs. do 10 exact_run_plain.
    eapply run_cons_ok; [exact_restart |]. reflexivity. }
  split; [reflexivity |]. split; [exact_norm; lra | lra].
Qed.

(** ** The rate within a cycle *)
Section WithinCycle.
Open Scope R_scope.

(** The cosine term falls strictly from one position of a period to a later
    one. *)
Lemma cos_position_decreasing (P p1 p2 : Z) :
  (0 <= p1 < p2)%Z -> (p2 < P)%Z ->
  cos (PI * (IZR p2 / IZR P)) < cos (PI * (IZR p1 / IZR P)).
Proof.
  intros H12 H2P.
  assert (HP : 0 < IZR P) by (apply IZR_lt; lia).
  assert (H1 : 0 <= IZR p1) by (apply IZR_le; lia).
  assert (H2 : IZR p1 < IZR p2) by (apply IZR_lt; lia).
  assert (H3 : IZR p2 < IZR P) by (apply IZR_lt; lia).
  assert (Hq1 : 0 <= IZR p1 / IZR P).
  { apply Rmult_le_pos; [exact H1 | left; apply Rinv_0_lt_compat; exact HP]. }
  assert (Hq12 : IZR p1 / IZR P < IZR p2 / IZR P).
  { apply Rmult_lt_compat_r; [apply Rinv_0_lt_compat; exact HP | exact H2]. }
  assert (Hq2 : IZR p2 / IZR P < 1).
  { apply (Rmult_lt_reg_r (IZR P)); [exact HP |].
    unfold Rdiv. rewrite Rmult_assoc, Rinv_l by lra. lra. }
  pose proof PI_RGT_0 as Hpi.
  apply cos_decreasing_1; nra.
Qed.

(** Strict decrease of the formula in the position, for a peak above the
    minimum. *)
Lemma exact_cosine_rate_decreasing (s : @self exact) (eff : R) (p1 p2 : Z) :
  (0 <= p1 < p2)%Z -> (p2 < total_epochs_per_period s)%Z ->
  min_learning_rate s < eff ->
  @cosine_rate exact s eff (IZR p2 / IZR (total_epochs_per_period s)) <
  @cosine_rate exact s eff (IZR p1 / IZR (total_epochs_per_period s)).
Proof.
  intros H12 H2P Heff.
  pose proof (cos_position_decreasing H12 H2P) as Hcos.
  unfold cosine_rate. cbn [F fadd fsub fmul half one math_cos math_pi exact].
  set (c1 := cos (PI * (IZR p1 / IZR (total_epochs_per_period s)))) in *.
  set (c2 := cos (PI * (IZR p2 / IZR (total_epochs_per_period s)))) in *.
  nra.
Qed.
End WithinCycle.

(** C6 (as amended).  In exact arithmetic, take two calls on schedulers with
    the same hyperparameters and a positive base period, neither of which
    fires a restart, whose epochs have the same cycle index
    [int(epoch / period)] and positions [p1 < p2] in [0, period).  If the peak
    discounted for that cycle is above the minimum rate, the later position
    gets the strictly smaller rate.  In the first cycle nothing is
    discounted, so [max_rate > min_rate] is enough there. *)
Theorem C6_rate_decreases_within_cycle :
  forall (s1 s2 : @self exact) (lr1 lr2 : @LearningRule.t exact) (e1 e2 : Z),
    hyperparameters s1 = hyperparameters s2 ->
    (0 < total_epochs_per_period s1)%Z ->
    IZR e1 <> exact_value (tNext s1) ->
    IZR e2 <> exact_value (tNext s2) ->
    Z.quot e1 (total_epochs_per_period s1) = Z.quot e2 (total_epochs_per_period s1) ->
    (e1 mod total_epochs_per_period s1 < e2 mod total_epochs_per_period s1)%Z ->
    (min_learning_rate s1 <
       @effective_max_learning_rate exact s1 (Z.quot e1 (total_epochs_per_period s1))
     \/ (Z.quot e1 (total_epochs_per_period s1) = 0%Z
         /\ min_learning_rate s1 < max_learning_rate s1))%R ->
    exists h1 s1' h2 s2',
      @update_learning_rule exact s1 lr1 e1 = Ok (h1, s1', lr1)
      /\ @update_learning_rule exact s2 lr2 e2 = Ok (h2, s2', lr2)
      /\ (h2 < h1)%R.
Proof.
  intros s1 s2 lr1 lr2 e1 e2 Hhyp HP Hn1 Hn2 Hq Hpos Heff.
  unfold hyperparameters in Hhyp.
  assert (Hmn : min_learning_rate s2 = min_learning_rate s1) by (inversion Hhyp; auto).
  assert (Hmx : max_learning_rate s2 = max_learning_rate s1) by (inversion Hhyp; auto).
  assert (HPe : total_epochs_per_period s2 = total_epochs_per_period s1)
    by (inversion Hhyp; auto).
  assert (Hd : max_learning_rate_discount_factor s2 = max_learning_rate_discount_factor s1)
    by (inversion Hhyp; auto).
  set (P := total_epochs_per_period s1) in *.
  assert (Heff' : (min_learning_rate s1 < @effective_max_learning_rate exact s1 (Z.quot e1 P))%R).
  { destruct Heff as [H | [H0 H]]; [exact H |].
    rewrite H0. unfold effective_max_learning_rate. cbn [Z.to_nat discount_loop].
    exact H. }
  assert (HP1 : total_epochs_per_period s1 <> 0%Z) by (fold P; lia).
  assert (HP2 : total_epochs_per_period s2 <> 0%Z) by (rewrite HPe; fold P; lia).
  rewrite (exact_update_plain s1 lr1 e1 HP1 Hn1).
  rewrite (exact_update_plain s2 lr2 e2 HP2 Hn2).
  do 4 eexists. split; [reflexivity | split; [reflexivity |]].
  rewrite HPe. fold P. rewrite <- Hq.
  assert (Hrate : forall eff x, @cosine_rate exact s2 eff x = @cosine_rate exact s1 eff x).
  { intros eff x. unfold cosine_rate. rewrite Hmn. reflexivity. }
  assert (Heq : @effective_max_learning_rate exact s2 (Z.quot e1 P) =
                @effective_max_learning_rate exact s1 (Z.quot e1 P)).
  { unfold effective_max_learning_rate. rewrite Hmx, Hd. reflexivity. }
  rewrite Hrate, Heq.
  apply exact_cosine_rate_decreasing.
  - split; [apply Z.mod_pos_bound; exact HP | exact Hpos].
  - apply Z.mod_pos_bound. exact HP.
  - exact Heff'.
Qed.

Lemma C6_witness :
  exists h1 s1' h2 s2',
    @update_learning_rule exact Scenario.plain_exact Scenario.rule_exact 1 =
      Ok (h1, s1', Scenario.rule_exact)
    /\ @update_learning_rule exact Scenario.plain_exact Scenario.rule_exact 2 =
         Ok (h2, s2', Scenario.rule_exact)
    /\ (h2 < h1)%R.
Proof.
  apply (@C6_rate_decreases_within_cycle Scenario.plain_exact Scenario.plain_exact
           Scenario.rule_exact Scenario.rule_exact 1%Z 2%Z).
  - reflexivity.
  - cbn. lia.
  - exact_norm. lra.
  - exact_norm. lra.
  - reflexivity.
  - cbn. lia.
  - right. split; [reflexivity | exact_norm; lra].
Defined.

(** C6 fails as stated: minimum 1/2, maximum 1 (so [max_rate > min_rate]),
    period 10, discount 1/4.  After the restart at epoch 10 the discounted
    peak 1/4 lies below the minimum, and the calls at epochs 11 and 12, which
    fire no restart and have positions 1 and 2, return rates that increase. *)
Lemma C6_counterexample :
  exists rates s11 h11 s12 h12 s13,
    (min_learning_rate Scenario.sunk_peak_exact <
     max_learning_rate Scenario.sunk_peak_exact)%R
    /\ @run exact Scenario.sunk_peak_exact Scenario.rule_exact (epochs 11) =
         Ok (rates, s11, LearningRule.reset Scenario.rule_exact)
    /\ @update_learning_rule exact s11 (LearningRule.reset Scenario.rule_exact) 11 =
         Ok (h11, s12, LearningRule.reset Scenario.rule_exact)
    /\ @update_learning_rule exact s12 (LearningRule.reset Scenario.rule_exact) 12 =
         Ok (h12, s13, LearningRule.reset Scenario.rule_exact)
    /\ tCur s12 = (1 + 1)%Z /\ tCur s13 = (2 + 1)%Z
    /\ (h11 < h12)%R.
Proof.
  do 6 eexists. split; [exact_norm; lra |]. split.
  { list_epochs. do 10 exact_run_plain.
    eapply run_cons_ok; [exact_restart |]. reflexivity. }
  split; [exact_plain |]. split; [exact_plain |].
  split; [reflexivity |]. split; [reflexivity |].
  exact_rate.
  assert (Hc : (cos (PI * (2 / 10)) < cos (PI * (1 / 10)))%R).
  { apply (@cos_position_decreasing 10 1 2); lia. }
  set (c1 := cos (PI * (1 / 10))) in *. set (c2 := cos (PI * (2 / 10))) in *.
  lra.
Qed.

(** ** Without period expansion the position does count epochs since the restart

    The slip shown at C4 is confined to expansion factors other than 1. *)
Lemma epochs_succ (n : nat) : epochs (S n) = epochs n ++ [Z.of_nat n].
Proof.
  unfold epochs, epoch_range. rewrite seq_S, map_app. reflexivity.
Qed.

Section Unexpanded.
Open Scope R_scope.

Lemma unexpanded_run_invariant (mn mx d : R) (P : Z) (lr : @LearningRule.t exact) :
  (0 < P)%Z ->
  forall n : nat,
    exists rates s lr' k,
      @run exact (@init exact mn mx P d 1) lr (epochs n) = Ok (rates, s, lr')
      /\ hyperparameters s = (mn, mx, P, d, 1)
      /\ exact_value (tPeriod s) = IZR P
      /\ exact_value (tNext s) = IZR (P * (k + 1))
      /\ (0 <= k)%Z
      /\ (Z.of_nat n = 0%Z -> k = 0%Z)
      /\ (0 < Z.of_nat n -> P * k <= Z.of_nat n - 1)%Z
      /\ (Z.of_nat n - 1 < P * (k + 1))%Z.
Proof.
  intros HP. induction n as [| n IH].
  - exists [], (@init exact mn mx P d 1), lr, 0%Z.
    cbn [epochs epoch_range seq map run init tPeriod tNext exact_value].
    repeat split; try lia.
    rewrite Z.mul_1_r. reflexivity. 
  - destruct IH as (rates & s & lr' & k & Hr & Hhyp & Hper & Hnext & Hk0 & Hz & Hlo & Hhi).
    assert (HPs : total_epochs_per_period s = P).
    { unfold hyperparameters in Hhyp. inversion Hhyp. reflexivity. }
    assert (Hxs : period_iteration_expansion_factor s = 1).
    { unfold hyperparameters in Hhyp. inversion Hhyp. reflexivity. }
    assert (HPne : total_epochs_per_period s <> 0%Z) by lia.
    rewrite epochs_succ.
    destruct (Z.eq_dec (Z.of_nat n) (P * (k + 1))) as [E | N].
    + assert (He : IZR (Z.of_nat n) = exact_value (tNext s)).
      { rewrite Hnext, E. reflexivity. }
      pose proof (exact_update_restart s lr' (Z.of_nat n) HPne He) as Hu.
      cbv zeta in Hu.
      do 3 eexists. exists (k + 1)%Z. split.
      { eapply run_snoc_ok; [exact Hr | exact Hu]. }
      split. { rewrite <- Hhyp. reflexivity. }
      cbn [set_position set_period tPeriod tNext exact_value].
      rewrite Hxs, Hper, Hnext.
      split; [apply Rmult_1_r |].
      split. { rewrite Rmult_1_r, <- plus_IZR. f_equal. ring. }
      repeat split; try lia; nia.
    + assert (He : IZR (Z.of_nat n) <> exact_value (tNext s)).
      { rewrite Hnext. intros E. apply eq_IZR in E. contradiction. }
      pose proof (exact_update_plain s lr' (Z.of_nat n) HPne He) as Hu.
      cbv zeta in Hu.
      do 3 eexists. exists k. split.
      { eapply run_snoc_ok; [exact Hr | exact Hu]. }
      split. { rewrite <- Hhyp. reflexivity. }
      cbn [set_position tPeriod tNext].
      split; [exact Hper |]. split; [exact Hnext |].
      repeat split; try lia; nia.
Qed.

(** With expansion factor 1 the position used at epoch [n] of a run over
    epochs 0, 1, 2, ... is [n mod P], and a restart fires exactly at the
    positive multiples of [P]: the position is 0 at a restart (and at epoch
    0) and one more than at the previous call everywhere else. *)
Lemma unexpanded_position (mn mx d : R) (P : Z) (lr : @LearningRule.t exact) :
  (0 < P)%Z ->
  forall n : nat,
    exists rates s lr' h s' lr'',
      @run exact (@init exact mn mx P d 1) lr (epochs n) = Ok (rates, s, lr')
      /\ @update_learning_rule exact s lr' (Z.of_nat n) = Ok (h, s', lr'')
      /\ h = @cosine_rate exact s
                (@effective_max_learning_rate exact s (Z.quot (Z.of_nat n) P))
                (IZR (Z.of_nat n mod P) / IZR P)
      /\ tCur s' = (Z.of_nat n mod P + 1)%Z
      /\ ((0 < Z.of_nat n)%Z /\ (Z.of_nat n mod P = 0)%Z ->
          lr'' = LearningRule.reset lr')
      /\ (~ ((0 < Z.of_nat n)%Z /\ (Z.of_nat n mod P = 0)%Z) -> lr'' = lr').
Proof.
  intros HP n.
  destruct (@unexpanded_run_invariant mn mx d P lr HP n)
    as (rates & s & lr' & k & Hr & Hhyp & Hper & Hnext & Hk0 & Hz & Hlo & Hhi).
  assert (HPs : total_epochs_per_period s = P).
  { unfold hyperparameters in Hhyp. inversion Hhyp. reflexivity. }
  assert (HPne : total_epochs_per_period s <> 0%Z) by lia.
  exists rates, s, lr'.
  destruct (Z.eq_dec (Z.of_nat n) (P * (k + 1))) as [E | N].
  - assert (He : IZR (Z.of_nat n) = exact_value (tNext s)).
    { rewrite Hnext, E. reflexivity. }
    assert (Hm : (Z.of_nat n mod P = 0)%Z).
    { rewrite E, Z.mul_comm. apply Z.mod_mul. lia. }
    pose proof (exact_update_restart s lr' (Z.of_nat n) HPne He) as Hu.
    cbv zeta in Hu. rewrite HPs in Hu.
    do 3 eexists. split; [exact Hr | split; [exact Hu |]].
    split. { rewrite Hm. replace (IZR 0 / IZR P) with 0 by (unfold Rdiv; ring). reflexivity. }
    split. { rewrite Hm. reflexivity. }
    split; [reflexivity |].
    intros Hnot. exfalso. apply Hnot. split; [nia | exact Hm].
  - assert (He : IZR (Z.of_nat n) <> exact_value (tNext s)).
    { rewrite Hnext. intros E. apply eq_IZR in E. contradiction. }
    pose proof (exact_update_plain s lr' (Z.of_nat n) HPne He) as Hu.
    cbv zeta in Hu. rewrite HPs in Hu.
    do 3 eexists. split; [exact Hr | split; [exact Hu |]].
    split; [reflexivity |]. split; [reflexivity |].
    split; [| reflexivity].
    intros [H0 Hm]. exfalso. apply N.
    pose proof (Z.div_mod (Z.of_nat n) P ltac:(lia)) as Hdm. rewrite Hm in Hdm.
    set (q := (Z.of_nat n / P)%Z) in *. specialize (Hlo H0).
    assert (q = k + 1)%Z by nia. nia.
Qed.
End Unexpanded.

(** ** The exact-arithmetic counterexamples, replayed in binary64

    None of the three depends on rounding or on the values of [cos]. *)
Section Binary64Replays.
Variable cos : float -> float.

(** Expansion factor 0.5: after the restart at epoch 10 the current period is
    5.0, below the base period 10. *)
Lemma binary64_shrinking_period :
  exists rates s lr',
    @run (binary64 cos) (Scenario.shrinking_binary64 cos)
      (Scenario.rule_binary64 cos) (epochs 11) = Ok (rates, s, lr')
    /\ total_epochs_per_period s = 10%Z
    /\ tPeriod s = @Float (binary64 cos) 5%float
    /\ tNext s = @Float (binary64 cos) 15%float.
Proof.
  let r := eval vm_compute in
      (@run (binary64 cos) (Scenario.shrinking_binary64 cos)
         (Scenario.rule_binary64 cos) (epochs 11)) in
  match r with Ok (?rs, ?s, ?l) => exists rs, s, l end.
  split. { vm_eval_lhs. reflexivity. }
  repeat split.
Qed.

(** Epoch -1 is accepted: position 9 of period 10, no discount, no reset. *)
Lemma binary64_negative_epoch :
  @update_learning_rule (binary64 cos) (Scenario.plain_binary64 cos)
    (Scenario.rule_binary64 cos) (-1) =
    Ok ((0 + 0.5 * (1 - 0) * (1 + cos (Binary64.pi * 0.9)))%float,
        @set_position (binary64 cos) (Scenario.plain_binary64 cos) 10 0,
        Scenario.rule_binary64 cos).
Proof. vm_eval_lhs. reflexivity. Qed.

(** Period -10 is accepted: the first call returns normally, at position
    [0 / -10 = -0.0]. *)
Lemma binary64_negative_period :
  @update_learning_rule (binary64 cos) (Scenario.negative_period_binary64 cos)
    (Scenario.rule_binary64 cos) 0 =
    Ok ((0 + 0.5 * (1 - 0) * (1 + cos (Binary64.pi * (-0))))%float,
        @set_position (binary64 cos) (Scenario.negative_period_binary64 cos) 1 0,
        Scenario.rule_binary64 cos).
Proof. vm_eval_lhs. reflexivity. Qed.
End Binary64Replays.

(** ** Calls that overflow in binary64

    Integers beyond the floats make a call raise after it has written part
    of the state. *)
Section Binary64Overflow.
Variable cos : float -> float.

(** Period 7, epoch [2^1030 + 3]: the quotient is beyond the floats, and the
    call raises at [int(epoch_number / period)] with [tCur] already set to
    the position 5 and [t] as it was. *)
Lemma binary64_huge_epoch_overflows (mn mx d x : float)
    (lr : @LearningRule.t (binary64 cos)) :
  @update_learning_rule (binary64 cos) (@init (binary64 cos) mn mx 7 d x) lr
    (2 ^ 1030 + 3) =
    Raise OverflowError
      (@set_position (binary64 cos) (@init (binary64 cos) mn mx 7 d x) 5 0, lr).
Proof. vm_eval_lhs. reflexivity. Qed.

(** Period [2^1100], epoch [2^1100]: the restart test succeeds and the call
    raises at [self.tPeriod *= factor], where the integer period has no
    float; [tCur] is 0, [t] is 1, the period and the next restart epoch are
    as they were and [reset()] has not been called. *)
Lemma binary64_huge_period_overflows (mn mx d x : float)
    (lr : @LearningRule.t (binary64 cos)) :
  @update_learning_rule (binary64 cos)
    (@init (binary64 cos) mn mx (2 ^ 1100) d x) lr (2 ^ 1100) =
    Raise OverflowError
      (@set_position (binary64 cos)
         (@init (binary64 cos) mn mx (2 ^ 1100) d x) 0 1, lr).
Proof. vm_eval_lhs. reflexivity. Qed.
End Binary64Overflow.

(** * Further properties of the warm-restart scheduler *)

(** ** What a call reads and what a run keeps, in any arithmetic *)
Section CallInputs.
Context `{PyFloat}.

(** The rate and the state a call returns, without the learning rule. *)
Lemma update_ignores_rule (s : self) (lr1 lr2 : LearningRule.t) (e : Z) :
  match update_learning_rule s lr1 e, update_learning_rule s lr2 e with
  | Ok (h1, s1, _), Ok (h2, s2, _) => h1 = h2 /\ s1 = s2
  | Raise x1 st1, Raise x2 st2 => x1 = x2 /\ fst st1 = fst st2
  | _, _ => False
  end.
Proof.
  destruct (Z.eq_dec (total_epochs_per_period s) 0) as [HP | HP].
  - rewrite !(update_zero_period s _ e HP). split; reflexivity.
  - rewrite !(update_nonzero_period s _ e HP). cbv zeta.
    destruct (int_truediv e (total_epochs_per_period s)) as [q |];
      [| split; reflexivity].
    destruct (trunc q) as [c |]; [| split; reflexivity].
    destruct (int_eq_num e (tNext s)).
    + destruct (num_mul_float (tPeriod s) (period_iteration_expansion_factor s))
        as [p' | x []]; [| split; reflexivity].
      destruct (num_add (tNext s) p') as [n' | x []]; [| split; reflexivity].
      destruct (int_truediv 0 (total_epochs_per_period s)); split; reflexivity.
    + destruct (int_truediv (e mod total_epochs_per_period s)
                  (total_epochs_per_period s)); split; reflexivity.
Qed.

(** Two schedulers that differ in [tCur] and [t] only. *)
Lemma update_ignores_position (s1 s2 : self) (lr : LearningRule.t) (e : Z) :
  hyperparameters s1 = hyperparameters s2 ->
  tNext s1 = tNext s2 ->
  tPeriod s1 = tPeriod s2 ->
  match update_learning_rule s1 lr e, update_learning_rule s2 lr e with
  | Ok r1, Ok r2 => r1 = r2
  | Raise x1 (s1', lr1'), Raise x2 (s2', lr2') =>
      x1 = x2 /\ lr1' = lr2'
      /\ hyperparameters s1' = hyperparameters s2'
      /\ tNext s1' = tNext s2' /\ tPeriod s1' = tPeriod s2'
      /\ (total_epochs_per_period s1 <> 0%Z -> tCur s1' = tCur s2')
  | _, _ => False
  end.
Proof.
  intros Hhyp Hn Hp.
  destruct s1 as [mn1 mx1 P1 d1 x1 n1 p1 c1 t1],
           s2 as [mn2 mx2 P2 d2 x2 n2 p2 c2 t2].
  unfold hyperparameters in Hhyp. cbn in Hhyp, Hn, Hp.
  inversion Hhyp; subst.
  set (s1 := Build_self mn2 mx2 P2 d2 x2 n2 p2 c1 t1).
  set (s2 := Build_self mn2 mx2 P2 d2 x2 n2 p2 c2 t2).
  destruct (Z.eq_dec P2 0) as [HP | HP].
  - rewrite (update_zero_period s1 lr e HP), (update_zero_period s2 lr e HP).
    repeat split. intros N. contradiction.
  - rewrite (update_nonzero_period s1 lr e HP), (update_nonzero_period s2 lr e HP).
    cbv zeta. cbn [s1 s2 total_epochs_per_period tNext tPeriod
                   period_iteration_expansion_factor].
    destruct (int_truediv e P2) as [q |]; [| repeat split].
    destruct (trunc q) as [c |]; [| repeat split].
    destruct (int_eq_num e n2).
    + destruct (num_mul_float p2 x2) as [p' | x []]; [| repeat split].
      destruct (num_add n2 p') as [n' | x []]; [| repeat split].
      destruct (int_truediv 0 P2); repeat split.
    + destruct (int_truediv (e mod P2) P2); repeat split.
Qed.
End CallInputs.

(** X1.  The attributes [tCur] and [t] that a call finds on the scheduler
    are overwritten before they are read, and the learning rule is never
    read: two schedulers that agree on the hyperparameters, on [tNext] and on
    [tPeriod] answer a call identically (same rate, same new state, same
    learning rule; or the same exception, raised with the same learning
    rule, hyperparameters, [tNext] and [tPeriod] and, for a non-zero period,
    the same [tCur]), and neither the rate and new state of a call that
    returns nor the exception and scheduler state of a call that raises
    depend on the learning rule passed in. *)
Theorem X1_stored_position_is_not_an_input :
  forall (A : PyFloat) (s1 s2 : self) (lr lr2 : LearningRule.t) (e : Z),
    hyperparameters s1 = hyperparameters s2 ->
    tNext s1 = tNext s2 ->
    tPeriod s1 = tPeriod s2 ->
    match update_learning_rule s1 lr e, update_learning_rule s2 lr e with
    | Ok r1, Ok r2 => r1 = r2
    | Raise x1 (s1', lr1'), Raise x2 (s2', lr2') =>
        x1 = x2 /\ lr1' = lr2'
        /\ hyperparameters s1' = hyperparameters s2'
        /\ tNext s1' = tNext s2' /\ tPeriod s1' = tPeriod s2'
        /\ (total_epochs_per_period s1 <> 0%Z -> tCur s1' = tCur s2')
    | _, _ => False
    end
    /\ match update_learning_rule s1 lr e, update_learning_rule s1 lr2 e with
       | Ok (h, s', _), Ok (h2, s2', _) => h = h2 /\ s' = s2'
       | Raise x st, Raise x2 st2 => x = x2 /\ fst st = fst st2
       | _, _ => False
       end.
Proof.
  intros A s1 s2 lr lr2 e Hhyp Hn Hp. split.
  - apply update_ignores_position; assumption.
  - apply update_ignores_rule.
Qed.

Lemma X1_witness :
  match @update_learning_rule exact Scenario.plain_exact Scenario.rule_exact 3,
        @update_learning_rule exact (@set_position exact Scenario.plain_exact 7 42)
          Scenario.rule_exact 3 with
  | Ok r1, Ok r2 => r1 = r2
  | Raise x1 (s1', lr1'), Raise x2 (s2', lr2') =>
      x1 = x2 /\ lr1' = lr2'
      /\ hyperparameters s1' = hyperparameters s2'
      /\ tNext s1' = tNext s2' /\ tPeriod s1' = tPeriod s2'
      /\ (total_epochs_per_period Scenario.plain_exact <> 0%Z ->
          tCur s1' = tCur s2')
  | _, _ => False
  end
  /\ match @update_learning_rule exact Scenario.plain_exact Scenario.rule_exact 3,
           @update_learning_rule exact Scenario.plain_exact
             (LearningRule.reset Scenario.rule_exact) 3 with
     | Ok (h, s', _), Ok (h2, s2', _) => h = h2 /\ s' = s2'
     | Raise x st, Raise x2 st2 => x = x2 /\ fst st = fst st2
     | _, _ => False
     end.
Proof.
  apply (@X1_stored_position_is_not_an_input exact Scenario.plain_exact
           (@set_position exact Scenario.plain_exact 7 42) Scenario.rule_exact
           (LearningRule.reset Scenario.rule_exact) 3%Z);
    reflexivity.
Defined.

(** ** Runs, whatever their outcome *)
Section RunFrame.
Context `{PyFloat}.

(** A run over epochs that all fail the restart test leaves the period
    bookkeeping and the learning rule alone, also when it raises. *)
Lemma run_without_restart (es : list Z) :
  forall (s : self) (lr : LearningRule.t),
    Forall (fun e => int_eq_num e (tNext s) = false) es ->
    tNext (fst (state_after (run s lr es))) = tNext s
    /\ tPeriod (fst (state_after (run s lr es))) = tPeriod s
    /\ snd (state_after (run s lr es)) = lr
    /\ forall rates s' lr',
         run s lr es = Ok (rates, s', lr') -> length rates = length es.
Proof.
  induction es as [| e rest IH]; intros s lr Hall.
  - cbn [run state_after fst snd]. repeat split.
    intros rates s' lr' Hr. inversion Hr. reflexivity.
  - inversion Hall as [| e' rest' He Hrest]; subst.
    rewrite run_cons_state.
    destruct (update_learning_rule s lr e) as [[[h s1] lr1] | x st] eqn:Hu.
    + destruct (update_period_fields s lr e Hu) as [_ Hf].
      rewrite He in Hf. destruct Hf as (Hp & Hn & Hl). subst lr1.
      rewrite <- Hn in Hrest.
      destruct (IH s1 lr Hrest) as (IHn & IHp & IHl & IHlen).
      rewrite IHn, IHp, IHl, Hn, Hp. repeat split.
      intros rates s' lr' Hr.
      destruct (run_cons_inv _ _ _ _ Hr) as (h0 & s0 & lr0 & hs0 & Hu0 & Hr0 & ->).
      rewrite Hu in Hu0. inversion Hu0; subst.
      cbn [length]. f_equal. eapply IHlen. exact Hr0.
    + pose proof (update_period_fields_any s lr e) as Hany.
      pose proof (update_frame s lr e) as Hfr.
      cbv zeta in Hany, Hfr. rewrite Hu in Hany, Hfr.
      cbn [state_after] in Hany, Hfr.
      assert (Hlr : snd st = lr).
      { revert Hu.
        destruct (Z.eq_dec (total_epochs_per_period s) 0) as [HP | HP].
        - rewrite (update_zero_period s lr e HP). intros Hu. inversion Hu.
          reflexivity.
        - update_cases s lr e HP; intros Hu; inversion Hu; try reflexivity;
            discriminate. }
      destruct Hany as [[Hp Hn] | (Ht & _)];
        [| rewrite He in Ht; discriminate Ht].
      repeat split; try assumption.
      intros rates s' lr' Hr.
      rewrite (run_cons_raise s lr e rest Hu) in Hr. discriminate Hr.
Qed.

(** A run keeps the hyperparameters and the learning rule's rate, and calls
    [reset()] at most once per epoch, also when it raises. *)
Lemma run_frame (es : list Z) :
  forall (s : self) (lr : LearningRule.t),
    hyperparameters (fst (state_after (run s lr es))) = hyperparameters s
    /\ LearningRule.learning_rate (snd (state_after (run s lr es))) =
       LearningRule.learning_rate lr
    /\ (LearningRule.reset_calls lr <=
        LearningRule.reset_calls (snd (state_after (run s lr es))) <=
        LearningRule.reset_calls lr + length es)%nat
    /\ forall rates s' lr',
         run s lr es = Ok (rates, s', lr') -> length rates = length es.
Proof.
  induction es as [| e rest IH]; intros s lr.
  - cbn [run state_after fst snd length]. repeat split; try lia.
    intros rates s' lr' Hr. inversion Hr. reflexivity.
  - rewrite run_cons_state.
    pose proof (update_frame s lr e) as Hfr. cbv zeta in Hfr.
    destruct (update_learning_rule s lr e) as [[[h s1] lr1] | x st] eqn:Hu;
      cbn [state_after fst snd] in Hfr; destruct Hfr as [Hh Hl].
    + destruct (IH s1 lr1) as (IHh & IHr & IHc & IHlen).
      rewrite IHh, IHr, Hh. cbn [length].
      assert (Hc1 : LearningRule.learning_rate lr1 = LearningRule.learning_rate lr
                    /\ (LearningRule.reset_calls lr <= LearningRule.reset_calls lr1
                        <= S (LearningRule.reset_calls lr))%nat).
      { destruct Hl as [-> | ->];
          cbn [LearningRule.reset LearningRule.learning_rate
               LearningRule.reset_calls]; split; try reflexivity; lia. }
      destruct Hc1 as [Hr1 Hc1].
      repeat split; try assumption; try lia.
      intros rates s' lr' Hr.
      destruct (run_cons_inv _ _ _ _ Hr) as (h0 & s0 & lr0 & hs0 & Hu0 & Hr0 & ->).
      rewrite Hu in Hu0. inversion Hu0; subst.
      cbn [length]. f_equal. eapply IHlen. exact Hr0.
    + cbn [length].
      assert (Hc1 : LearningRule.learning_rate (snd st) = LearningRule.learning_rate lr
                    /\ (LearningRule.reset_calls lr <= LearningRule.reset_calls (snd st)
                        <= S (LearningRule.reset_calls lr))%nat).
      { destruct Hl as [-> | ->];
          cbn [LearningRule.reset LearningRule.learning_rate
               LearningRule.reset_calls]; split; try reflexivity; lia. }
      destruct Hc1 as [Hr1 Hc1].
      repeat split; try assumption; try lia.
      intros rates s' lr' Hr.
      rewrite (run_cons_raise s lr e rest Hu) in Hr. discriminate Hr.
Qed.
End RunFrame.

(** In exact arithmetic a run with a non-zero period returns. *)
Lemma exact_run_returns (es : list Z) :
  forall (s : @self exact) (lr : @LearningRule.t exact),
    total_epochs_per_period s <> 0%Z ->
    exists rates s' lr', @run exact s lr es = Ok (rates, s', lr').
Proof.
  induction es as [| e rest IH]; intros s lr HP.
  - exists [], s, lr. reflexivity.
  - destruct (exact_update_returns s lr e HP) as (h & s1 & lr1 & Hu).
    assert (HP1 : total_epochs_per_period s1 <> 0%Z).
    { pose proof (update_keeps_hyperparameters s lr e Hu) as Hh.
      unfold hyperparameters in Hh. inversion Hh. congruence. }
    destruct (IH s1 lr1 HP1) as (hs & s2 & lr2 & Hr).
    exists (h :: hs), s2, lr2. eapply run_cons_ok; eassumption.
Qed.

(** X2.  The restart test is an equality, so a restart epoch that is not
    hit is not made up for: a run over any list of epochs none of which
    equals the stored [tNext] leaves [tNext], [tPeriod] and the learning rule
    exactly as they were, whether it returns or raises, and if it returns it
    returns one rate per epoch.  In exact arithmetic, with a non-zero period,
    this covers every list of epochs beyond [tNext], and the run returns. *)
Theorem X2_missed_restart_never_fires :
  (forall (A : PyFloat) (es : list Z) (s : self) (lr : LearningRule.t),
     Forall (fun e => int_eq_num e (tNext s) = false) es ->
     tNext (fst (state_after (run s lr es))) = tNext s
     /\ tPeriod (fst (state_after (run s lr es))) = tPeriod s
     /\ snd (state_after (run s lr es)) = lr
     /\ forall rates s' lr',
          run s lr es = Ok (rates, s', lr') -> length rates = length es)
  /\
  (forall (es : list Z) (s : @self exact) (lr : @LearningRule.t exact),
     total_epochs_per_period s <> 0%Z ->
     Forall (fun e => (exact_value (tNext s) < IZR e)%R) es ->
     exists rates s',
       @run exact s lr es = Ok (rates, s', lr)
       /\ length rates = length es
       /\ tNext s' = tNext s
       /\ tPeriod s' = tPeriod s).
Proof.
  split.
  - intros A es s lr Hall. apply run_without_restart. exact Hall.
  - intros es s lr HP Hall.
    assert (Hall' : Forall (fun e => @int_eq_num exact e (tNext s) = false) es).
    { apply Forall_impl with (2 := Hall). intros e He.
      apply exact_int_eq_num_false. apply Rgt_not_eq. exact He. }
    destruct (exact_run_returns es s lr HP) as (rates & s' & lr' & Hr).
    destruct (@run_without_restart exact es s lr Hall') as (Hn & Hp & Hl & Hlen).
    rewrite Hr in Hn, Hp, Hl. cbn [state_after fst snd] in Hn, Hp, Hl. subst lr'.
    exists rates, s'. split; [exact Hr |].
    split; [eapply Hlen; exact Hr |]. split; assumption.
Qed.

Lemma X2_witness :
  exists rates s',
    @run exact Scenario.plain_exact Scenario.rule_exact [11; 12; 20; 30]%Z =
      Ok (rates, s', Scenario.rule_exact)
    /\ length rates = length [11; 12; 20; 30]%Z
    /\ tNext s' = tNext Scenario.plain_exact
    /\ tPeriod s' = tPeriod Scenario.plain_exact.
Proof.
  apply (proj2 X2_missed_restart_never_fires [11; 12; 20; 30]%Z
           Scenario.plain_exact Scenario.rule_exact).
  - cbn. lia.
  - repeat constructor;
      cbn [Scenario.plain_exact init tNext exact_value]; lra.
Defined.

(** X3.  A run composes calls without losing anything: whether it returns
    or raises, it keeps the five hyperparameters, never changes the learning
    rule's [learning_rate], and calls [reset()] at most once per epoch; if it
    returns, it returns one rate per epoch.  With a zero period every
    non-empty run raises [ZeroDivisionError] at its first call, before
    writing anything.  In exact arithmetic a run with a non-zero period
    returns. *)
Theorem X3_run_composes_calls :
  (forall (A : PyFloat) (es : list Z) (s : self) (lr : LearningRule.t),
     hyperparameters (fst (state_after (run s lr es))) = hyperparameters s
     /\ LearningRule.learning_rate (snd (state_after (run s lr es))) =
        LearningRule.learning_rate lr
     /\ (LearningRule.reset_calls lr <=
         LearningRule.reset_calls (snd (state_after (run s lr es))) <=
         LearningRule.reset_calls lr + length es)%nat
     /\ (forall rates s' lr',
           run s lr es = Ok (rates, s', lr') -> length rates = length es)
     /\ (total_epochs_per_period s = 0%Z -> es <> [] ->
         run s lr es = Raise ZeroDivisionError (s, lr)))
  /\
  (forall (es : list Z) (s : @self exact) (lr : @LearningRule.t exact),
     total_epochs_per_period s <> 0%Z ->
     exists rates s' lr',
       @run exact s lr es = Ok (rates, s', lr')
       /\ length rates = length es).
Proof.
  split.
  - intros A es s lr.
    destruct (run_frame es s lr) as (Hh & Hr & Hc & Hlen).
    repeat split; try assumption; try lia.
    intros HP Hne. destruct es as [| e rest]; [contradiction |].
    apply run_cons_raise. apply update_zero_period. exact HP.
  - intros es s lr HP.
    destruct (exact_run_returns es s lr HP) as (rates & s' & lr' & Hr).
    exists rates, s', lr'. split; [exact Hr |].
    destruct (@run_frame exact es s lr) as (_ & _ & _ & Hlen).
    eapply Hlen. exact Hr.
Qed.

Lemma X3_witness :
  exists rates s' lr',
    @run exact Scenario.plain_exact Scenario.rule_exact (epochs 25) =
      Ok (rates, s', lr')
    /\ length rates = length (epochs 25).
Proof.
  apply (proj2 X3_run_composes_calls (epochs 25) Scenario.plain_exact
           Scenario.rule_exact).
  cbn. lia.
Defined.

(** X4.  With a positive period, the [tCur] a call leaves behind is one
    more than the position the formula used when the call returns (0 on a
    restart, [epoch_number % period] otherwise), hence in [1, period]; when
    the call raises, it is the position itself, [epoch_number % period], or
    0 if the restart branch had completed, hence in [0, period). *)
Theorem X4_stored_position_range :
  forall (A : PyFloat) (s : self) (lr : LearningRule.t) (e : Z),
    (0 < total_epochs_per_period s)%Z ->
    match update_learning_rule s lr e with
    | Ok (_, s', _) =>
        (1 <= tCur s' <= total_epochs_per_period s)%Z
        /\ tCur s' = ((if int_eq_num e (tNext s)
                       then 0 else e mod total_epochs_per_period s) + 1)%Z
    | Raise _ (s', _) =>
        (0 <= tCur s' < total_epochs_per_period s)%Z
        /\ (tCur s' = (e mod total_epochs_per_period s)%Z
            \/ (int_eq_num e (tNext s) = true /\ tCur s' = 0%Z))
    end.
Proof.
  intros A s lr e HP.
  assert (HPne : total_epochs_per_period s <> 0%Z) by lia.
  pose proof (Z.mod_pos_bound e _ HP) as Hb.
  update_cases s lr e HPne; cbn [set_position set_period tCur];
    split; auto; lia.
Qed.

Lemma X4_witness :
  match @update_learning_rule exact Scenario.plain_exact Scenario.rule_exact 9 with
  | Ok (_, s', _) =>
      (1 <= tCur s' <= total_epochs_per_period Scenario.plain_exact)%Z
      /\ tCur s' = ((if @int_eq_num exact 9 (tNext Scenario.plain_exact)
                     then 0
                     else 9 mod total_epochs_per_period Scenario.plain_exact) + 1)%Z
  | Raise _ (s', _) =>
      (0 <= tCur s' < total_epochs_per_period Scenario.plain_exact)%Z
      /\ (tCur s' = (9 mod total_epochs_per_period Scenario.plain_exact)%Z
          \/ (@int_eq_num exact 9 (tNext Scenario.plain_exact) = true
              /\ tCur s' = 0%Z))
  end.
Proof.
  apply (@X4_stored_position_range exact Scenario.plain_exact
           Scenario.rule_exact 9%Z).
  cbn. lia.
Defined.

(** ** Values in exact arithmetic *)
Section ExactValues.
Open Scope R_scope.

(** X5.  The loop [for i in range(self.t)] multiplies the maximum by the
    discount factor once per completed base period: the effective maximum is
    [max * discount ^ c] for a cycle index [c >= 0] and the undiscounted
    maximum for [c <= 0].  For a discount factor in [0, 1] and a non-negative
    maximum it never grows from one cycle index to the next, and for a
    factor strictly between 0 and 1 and a positive maximum it shrinks
    strictly. *)
Theorem X5_discounted_peak :
  forall (s : @self exact) (c : Z),
    @effective_max_learning_rate exact s c =
      max_learning_rate s * max_learning_rate_discount_factor s ^ Z.to_nat c
    /\ ((c <= 0)%Z -> @effective_max_learning_rate exact s c = max_learning_rate s)
    /\ (0 <= max_learning_rate_discount_factor s <= 1 -> 0 <= max_learning_rate s ->
        @effective_max_learning_rate exact s (c + 1) <=
        @effective_max_learning_rate exact s c)
    /\ (0 < max_learning_rate_discount_factor s < 1 -> 0 < max_learning_rate s ->
        (0 <= c)%Z ->
        @effective_max_learning_rate exact s (c + 1) <
        @effective_max_learning_rate exact s c).
Proof.
  intros s c.
  split; [apply exact_effective_max_form |].
  split; [apply exact_effective_max_nonpos |].
  rewrite !exact_effective_max_form.
  change (@F exact) with R in *.
  set (mx := max_learning_rate s : R). set (d := max_learning_rate_discount_factor s : R).
  split.
  - intros Hd Hmx.
    destruct (Z_lt_le_dec c 0) as [Hneg | Hnn].
    + replace (Z.to_nat (c + 1)) with 0%nat by lia.
      replace (Z.to_nat c) with 0%nat by lia. apply Rle_refl.
    + replace (Z.to_nat (c + 1)) with (S (Z.to_nat c)) by lia.
      cbn [pow].
      assert (Hp : 0 <= d ^ Z.to_nat c) by (apply pow_le; lra).
      set (p := d ^ Z.to_nat c) in *.
      assert (Hmp : 0 <= mx * p) by (apply Rmult_le_pos; lra).
      nra.
  - intros Hd Hmx Hc.
    replace (Z.to_nat (c + 1)) with (S (Z.to_nat c)) by lia.
    cbn [pow].
    assert (Hp : 0 < d ^ Z.to_nat c) by (apply pow_lt; lra).
    set (p := d ^ Z.to_nat c) in *.
    assert (Hmp : 0 < mx * p) by (apply Rmult_lt_0_compat; lra).
    nra.
Qed.

Lemma X5_witness :
  (@effective_max_learning_rate exact Scenario.discounted_exact (2 + 1) <
   @effective_max_learning_rate exact Scenario.discounted_exact 2)%R.
Proof.
  apply (proj2 (proj2 (proj2 (X5_discounted_peak Scenario.discounted_exact 2%Z)))).
  - cbn [Scenario.discounted_exact init max_learning_rate_discount_factor]. lra.
  - cbn [Scenario.discounted_exact init max_learning_rate]. lra.
  - lia.
Defined.

Lemma exact_cosine_rate_between (s : @self exact) (eff x : R) :
  (min_learning_rate s <= eff ->
   min_learning_rate s <= @cosine_rate exact s eff x <= eff)
  /\ (eff <= min_learning_rate s ->
      eff <= @cosine_rate exact s eff x <= min_learning_rate s).
Proof.
  unfold cosine_rate. cbn [F fadd fsub fmul half one math_cos math_pi exact].
  pose proof (COS_bound (PI * x)) as [Hlo Hhi].
  set (c := cos (PI * x)) in *.
  split; intros H; split; nra.
Qed.

(** X6.  Every rate returned lies between the minimum rate and the
    effective (discounted) maximum of the call, whichever of the two is the
    larger: the cosine term keeps the interpolation weight in [0, 1]. *)
Theorem X6_rate_between_min_and_peak :
  forall (s : @self exact) (lr : @LearningRule.t exact) (e : Z),
    total_epochs_per_period s <> 0%Z ->
    let eff := @effective_max_learning_rate exact s
                 (Z.quot e (total_epochs_per_period s)) in
    exists h s' lr',
      @update_learning_rule exact s lr e = Ok (h, s', lr')
      /\ (min_learning_rate s <= eff -> min_learning_rate s <= h <= eff)
      /\ (eff <= min_learning_rate s -> eff <= h <= min_learning_rate s).
Proof.
  intros s lr e HP eff.
  destruct (Req_dec_T (IZR e) (exact_value (tNext s))) as [E | N].
  - rewrite (exact_update_restart s lr e HP E). do 3 eexists.
    split; [reflexivity |]. apply exact_cosine_rate_between.
  - rewrite (exact_update_plain s lr e HP N). do 3 eexists.
    split; [reflexivity |]. apply exact_cosine_rate_between.
Qed.

Lemma X6_witness :
  exists h s' lr',
    @update_learning_rule exact Scenario.sunk_peak_exact Scenario.rule_exact 13 =
      Ok (h, s', lr')
    /\ (min_learning_rate Scenario.sunk_peak_exact <=
          @effective_max_learning_rate exact Scenario.sunk_peak_exact (Z.quot 13 10) ->
        min_learning_rate Scenario.sunk_peak_exact <= h <=
          @effective_max_learning_rate exact Scenario.sunk_peak_exact (Z.quot 13 10))
    /\ (@effective_max_learning_rate exact Scenario.sunk_peak_exact (Z.quot 13 10) <=
          min_learning_rate Scenario.sunk_peak_exact ->
        @effective_max_learning_rate exact Scenario.sunk_peak_exact (Z.quot 13 10) <= h
          <= min_learning_rate Scenario.sunk_peak_exact).
Proof.
  apply (@X6_rate_between_min_and_peak Scenario.sunk_peak_exact
           Scenario.rule_exact 13%Z).
  cbn. lia.
Defined.

(** X7.  Half-way through an even base period the rate is the mean of the
    minimum and the effective maximum: at a position equal to half the
    period, on a call without restart, the cosine term vanishes. *)
Theorem X7_midpoint_rate :
  forall (s : @self exact) (lr : @LearningRule.t exact) (e m : Z),
    (0 < m)%Z ->
    total_epochs_per_period s = (2 * m)%Z ->
    (e mod (2 * m) = m)%Z ->
    IZR e <> exact_value (tNext s) ->
    exists s',
      @update_learning_rule exact s lr e =
        Ok ((min_learning_rate s +
             @effective_max_learning_rate exact s (Z.quot e (2 * m))) / 2,
            s', lr).
Proof.
  intros s lr e m Hm HP Hpos Hne.
  assert (HPne : total_epochs_per_period s <> 0%Z) by lia.
  rewrite (exact_update_plain s lr e HPne Hne). rewrite HP, Hpos.
  eexists. f_equal. f_equal. f_equal.
  unfold cosine_rate. cbn [F fadd fsub fmul half one math_cos math_pi exact].
  assert (HmR : IZR m <> 0) by (apply not_0_IZR; lia).
  replace (PI * (IZR m / IZR (2 * m))) with (PI / 2)
    by (rewrite mult_IZR; field; exact HmR).
  rewrite cos_PI2. field.
Qed.

Lemma X7_witness :
  exists s',
    @update_learning_rule exact Scenario.plain_exact Scenario.rule_exact 5 =
      Ok ((min_learning_rate Scenario.plain_exact +
           @effective_max_learning_rate exact Scenario.plain_exact (Z.quot 5 (2 * 5))) / 2,
          s', Scenario.rule_exact).
Proof.
  apply (@X7_midpoint_rate Scenario.plain_exact Scenario.rule_exact 5%Z 5%Z).
  - lia.
  - reflexivity.
  - reflexivity.
  - cbn [Scenario.plain_exact init tNext exact_value]. lra.
Defined.

(** X8.  A negative epoch number on a scheduler with a positive period and a
    non-negative [tNext] fires no restart and applies no discount: the cycle
    index [int(epoch / period)] is zero or negative, so the loop body never
    runs and the rate is the cosine formula with the undiscounted maximum at
    position [epoch % period]. *)
Theorem X8_negative_epoch_undiscounted :
  forall (s : @self exact) (lr : @LearningRule.t exact) (e : Z),
    (e < 0)%Z ->
    (0 < total_epochs_per_period s)%Z ->
    0 <= exact_value (tNext s) ->
    let P := total_epochs_per_period s in
    (Z.quot e P <= 0)%Z
    /\ @update_learning_rule exact s lr e =
         Ok (@cosine_rate exact s (max_learning_rate s) (IZR (e mod P) / IZR P),
             @set_position exact s (e mod P + 1) (Z.quot e P),
             lr).
Proof.
  intros s lr e He HP Hn P.
  assert (HPne : total_epochs_per_period s <> 0%Z) by lia.
  assert (Hq : (Z.quot e P <= 0)%Z).
  { apply Z.quot_le_upper_bound; [exact HP | lia]. }
  split; [exact Hq |].
  assert (Hne : IZR e <> exact_value (tNext s)).
  { apply Rlt_not_eq. apply Rlt_le_trans with (2 := Hn). apply IZR_lt. exact He. }
  rewrite (exact_update_plain s lr e HPne Hne). fold P.
  rewrite (exact_effective_max_nonpos s Hq). reflexivity.
Qed.
End ExactValues.

Lemma X8_witness :
  (Z.quot (-3) (total_epochs_per_period Scenario.discounted_exact) <= 0)%Z
  /\ @update_learning_rule exact Scenario.discounted_exact Scenario.rule_exact (-3) =
       Ok (@cosine_rate exact Scenario.discounted_exact
             (max_learning_rate Scenario.discounted_exact)
             (IZR ((-3) mod total_epochs_per_period Scenario.discounted_exact) /
              IZR (total_epochs_per_period Scenario.discounted_exact))%R,
           @set_position exact Scenario.discounted_exact
             ((-3) mod total_epochs_per_period Scenario.discounted_exact + 1)
             (Z.quot (-3) (total_epochs_per_period Scenario.discounted_exact)),
           Scenario.rule_exact).
Proof.
  apply (@X8_negative_epoch_undiscounted Scenario.discounted_exact
           Scenario.rule_exact (-3)%Z).
  - lia.
  - cbn. lia.
  - cbn [Scenario.discounted_exact init tNext exact_value]. lra.
Defined.

(** ** Closed forms for the period bookkeeping, in exact arithmetic *)
Section PeriodClosedForm.
Open Scope R_scope.

Lemma exact_run_geometric (es : list Z) :
  forall (s : @self exact) (lr : @LearningRule.t exact) (P : Z) (x : R) (k : nat),
    total_epochs_per_period s = P -> P <> 0%Z ->
    period_iteration_expansion_factor s = x ->
    exact_value (tPeriod s) = IZR P * x ^ k ->
    exact_value (tNext s) = IZR P * sum_f_R0 (fun i => x ^ i) k ->
    exists rates s' lr' j,
      @run exact s lr es = Ok (rates, s', lr')
      /\ LearningRule.reset_calls lr' = (LearningRule.reset_calls lr + j)%nat
      /\ exact_value (tPeriod s') = IZR P * x ^ (k + j)
      /\ exact_value (tNext s') = IZR P * sum_f_R0 (fun i => x ^ i) (k + j).
Proof.
  induction es as [| e rest IH]; intros s lr P x k HP HP0 Hx Hper Hnext.
  - exists [], s, lr, 0%nat. cbn [run]. rewrite !Nat.add_0_r. repeat split; assumption.
  - assert (HPne : total_epochs_per_period s <> 0%Z) by congruence.
    destruct (exact_update_period_fields s lr e HPne)
      as (h & s1 & lr1 & Hu & Hhyp & Hyes & Hno).
    assert (HP1 : total_epochs_per_period s1 = P).
    { unfold hyperparameters in Hhyp. inversion Hhyp. congruence. }
    assert (Hx1 : period_iteration_expansion_factor s1 = x).
    { unfold hyperparameters in Hhyp. inversion Hhyp. congruence. }
    destruct (@int_eq_num exact e (tNext s)).
    + destruct (Hyes eq_refl) as (Hp & Hn & Hl).
      assert (Hper1 : exact_value (tPeriod s1) = IZR P * x ^ (S k)).
      { rewrite Hp, Hx, Hper. cbn [pow]. ring. }
      assert (Hnext1 : exact_value (tNext s1) =
                       IZR P * sum_f_R0 (fun i => x ^ i) (S k)).
      { rewrite Hn, Hper1, Hnext. cbn [sum_f_R0 pow]. ring. }
      destruct (IH s1 lr1 P x (S k) HP1 HP0 Hx1 Hper1 Hnext1)
        as (hs & s2 & lr2 & j & Hr & Hc & Hp2 & Hn2).
      exists (h :: hs), s2, lr2, (S j). split; [eapply run_cons_ok; eassumption |].
      subst lr1. cbn [LearningRule.reset LearningRule.reset_calls] in Hc.
      replace (k + S j)%nat with (S k + j)%nat by lia.
      repeat split; [lia | exact Hp2 | exact Hn2].
    + destruct (Hno eq_refl) as (Hp & Hn & Hl).
      rewrite <- Hp in Hper. rewrite <- Hn in Hnext.
      destruct (IH s1 lr1 P x k HP1 HP0 Hx1 Hper Hnext)
        as (hs & s2 & lr2 & j & Hr & Hc & Hp2 & Hn2).
      exists (h :: hs), s2, lr2, j. split; [eapply run_cons_ok; eassumption |].
      subst lr1. repeat split; assumption.
Qed.

(** X9.  After any sequence of calls on a freshly constructed scheduler
    with a non-zero base period [P] and expansion factor [x], if [reset()]
    has been called [j] times then the current period is [P * x^j] and the
    next restart epoch is [P * (1 + x + ... + x^j)]. *)
Theorem X9_period_after_restarts :
  forall (mn mx : R) (P : Z) (d x : R) (lr : @LearningRule.t exact) (es : list Z),
    P <> 0%Z ->
    exists rates s lr' j,
      @run exact (@init exact mn mx P d x) lr es = Ok (rates, s, lr')
      /\ LearningRule.reset_calls lr' = (LearningRule.reset_calls lr + j)%nat
      /\ exact_value (tPeriod s) = IZR P * x ^ j
      /\ exact_value (tNext s) = IZR P * sum_f_R0 (fun i => x ^ i) j.
Proof.
  intros mn mx P d x lr es HP.
  apply (@exact_run_geometric es (@init exact mn mx P d x) lr P x 0%nat);
    try reflexivity; try exact HP;
    cbn [F init tPeriod tNext exact_value sum_f_R0 pow]; ring.
Qed.

Lemma X9_witness :
  exists rates s lr' j,
    @run exact (@init exact 0 1 10 1 2) Scenario.rule_exact (epochs 31) =
      Ok (rates, s, lr')
    /\ LearningRule.reset_calls lr' =
       (LearningRule.reset_calls Scenario.rule_exact + j)%nat
    /\ exact_value (tPeriod s) = IZR 10 * 2 ^ j
    /\ exact_value (tNext s) = IZR 10 * sum_f_R0 (fun i => 2 ^ i) j.
Proof.
  apply (@X9_period_after_restarts 0 1 10%Z 1 2 Scenario.rule_exact (epochs 31)).
  lia.
Defined.

Lemma sum_of_ones (j : nat) : sum_f_R0 (fun i => 1 ^ i) j = INR j + 1.
Proof.
  induction j as [| j IH].
  - cbn. ring.
  - cbn [sum_f_R0]. rewrite IH, pow1, S_INR. ring.
Qed.
End PeriodClosedForm.

(** X10.  Without period expansion (factor 1, positive base period [P]) a
    run over the epochs 0, 1, ..., n-1 has called [reset()] once for every
    positive multiple of [P] below [n], that is [(n-1) / P] times, keeps the
    current period at [P], and expects the next restart at the following
    multiple of [P]. *)
Theorem X10_unexpanded_restart_count :
  forall (mn mx d : R) (P : Z) (lr : @LearningRule.t exact) (n : nat),
    (0 < P)%Z ->
    exists rates s lr',
      @run exact (@init exact mn mx P d 1%R) lr (epochs n) = Ok (rates, s, lr')
      /\ Z.of_nat (LearningRule.reset_calls lr') =
         (Z.of_nat (LearningRule.reset_calls lr) + Z.max 0 ((Z.of_nat n - 1) / P))%Z
      /\ exact_value (tPeriod s) = IZR P
      /\ exact_value (tNext s) =
         IZR (P * (1 + Z.max 0 ((Z.of_nat n - 1) / P))).
Proof.
  intros mn mx d P lr n HP.
  destruct (@unexpanded_run_invariant mn mx d P lr HP n)
    as (rates & s & lr' & k & Hr & Hhyp & Hper & Hnext & Hk0 & Hz & Hlo & Hhi).
  assert (HPne : P <> 0%Z) by lia.
  destruct (@exact_run_geometric (epochs n) (@init exact mn mx P d 1%R) lr P 1%R 0%nat
              eq_refl HPne eq_refl)
    as (rates2 & s2 & lr2 & j & Hr2 & Hcnt & _ & Hnext2).
  { cbn [F init tPeriod exact_value pow]. ring. }
  { cbn [F init tNext exact_value sum_f_R0 pow]. ring. }
  rewrite Hr in Hr2. inversion Hr2; subst rates2 s2 lr2. clear Hr2.
  rewrite Nat.add_0_l, sum_of_ones, Hnext in Hnext2.
  assert (Hjk : Z.of_nat j = k).
  { rewrite INR_IZR_INZ, <- plus_IZR, <- mult_IZR in Hnext2.
    apply eq_IZR in Hnext2. nia. }
  assert (Hk : k = Z.max 0 ((Z.of_nat n - 1) / P)).
  { destruct (Z.eq_dec (Z.of_nat n) 0) as [E0 | N0].
    - rewrite (Hz E0), E0.
      assert ((0 - 1) / P < 0)%Z by (apply Z.div_lt_upper_bound; lia). lia.
    - assert (Hn0 : (0 < Z.of_nat n)%Z) by lia. specialize (Hlo Hn0).
      assert (Hq : ((Z.of_nat n - 1) / P = k)%Z).
      { symmetry. apply (Z.div_unique _ _ k (Z.of_nat n - 1 - P * k)); lia. }
      lia. }
  exists rates, s, lr'. split; [exact Hr |].
  split; [rewrite Hcnt, Nat2Z.inj_add; lia |].
  split; [exact Hper |].
  rewrite Hnext, <- Hk. f_equal. ring.
Qed.

Lemma X10_witness :
  exists rates s lr',
    @run exact (@init exact 0%R 1%R 10 1%R 1%R) Scenario.rule_exact (epochs 35) =
      Ok (rates, s, lr')
    /\ Z.of_nat (LearningRule.reset_calls lr') =
       (Z.of_nat (LearningRule.reset_calls Scenario.rule_exact) +
        Z.max 0 ((Z.of_nat 35 - 1) / 10))%Z
    /\ exact_value (tPeriod s) = IZR 10
    /\ exact_value (tNext s) = IZR (10 * (1 + Z.max 0 ((Z.of_nat 35 - 1) / 10))).
Proof.
  apply (@X10_unexpanded_restart_count 0%R 1%R 1%R 10%Z Scenario.rule_exact 35%nat).
  lia.
Defined.

(** ** A restart in binary64 *)

(** X11.  In binary64, for a positive period and a C library whose [cos]
    is 1 at zero, a call whose epoch equals [tNext] either returns
    [min + 0.5 * (eff - min) * 2] (each operation rounded), where [eff] is the
    maximum discounted [int(epoch / period)] times, having called [reset()]
    once and stored [tCur = 1]; or it raises an exception other than
    [ZeroDivisionError] before [reset()] is reached, with [tCur] at the
    position [epoch % period].  The second case occurs: with period [2^1100]
    the call at epoch [2^1100] raises [OverflowError]. *)
Theorem X11_binary64_restart_rate :
  (forall (cos : float -> float) (s : @self (binary64 cos))
          (lr : @LearningRule.t (binary64 cos)) (e : Z),
     cos 0%float = 1%float ->
     (0 < total_epochs_per_period s)%Z ->
     @int_eq_num (binary64 cos) e (tNext s) = true ->
     match @update_learning_rule (binary64 cos) s lr e with
     | Ok (h, s', lr') =>
         exists q c,
           Binary64.int_truediv e (total_epochs_per_period s) = Some q
           /\ Binary64.trunc q = Some c
           /\ h = (min_learning_rate s +
                   0.5 * (@effective_max_learning_rate (binary64 cos) s c
                          - min_learning_rate s) * 2)%float
           /\ lr' = LearningRule.reset lr
           /\ tCur s' = 1%Z
           /\ t s' = (c + 1)%Z
     | Raise x (s', lr') =>
         x <> ZeroDivisionError /\ lr' = lr
         /\ tCur s' = (e mod total_epochs_per_period s)%Z
     end)
  /\
  (forall (cos : float -> float) (mn mx d x : float)
          (lr : @LearningRule.t (binary64 cos)),
     @update_learning_rule (binary64 cos)
       (@init (binary64 cos) mn mx (2 ^ 1100) d x) lr (2 ^ 1100) =
       Raise OverflowError
         (@set_position (binary64 cos)
            (@init (binary64 cos) mn mx (2 ^ 1100) d x) 0 1, lr)).
Proof.
  split.
  - intros cos s lr e Hcos HP He.
    assert (HPne : total_epochs_per_period s <> 0%Z) by lia.
    rewrite (update_nonzero_period s lr e HPne). cbv zeta. rewrite He.
    change (@int_truediv (binary64 cos)) with Binary64.int_truediv.
    change (@trunc (binary64 cos)) with Binary64.trunc.
    change (@is_nan (binary64 cos)) with PrimFloat.is_nan.
    rewrite (binary64_truediv_zero HP).
    destruct (Binary64.int_truediv e (total_epochs_per_period s)) as [q |];
      [| repeat split; discriminate].
    destruct (Binary64.trunc q) as [c |] eqn:Hc;
      [| repeat split; destruct (PrimFloat.is_nan q); discriminate].
    destruct (@num_mul_float (binary64 cos) (tPeriod s)
                (period_iteration_expansion_factor s)) as [p' | x []] eqn:Hp.
    + destruct (@num_add (binary64 cos) (tNext s) p') as [n' | x []] eqn:Hn.
      * exists q, c. rewrite (binary64_cosine_rate_peak Hcos).
        repeat split. exact Hc.
      * rewrite (num_add_raises _ _ Hn). repeat split. discriminate.
    + rewrite (num_mul_float_raises _ _ Hp). repeat split. discriminate.
  - intros cos mn mx d x lr. apply binary64_huge_period_overflows.
Qed.

Lemma X11_witness :
  match @update_learning_rule (binary64 Scenario.cos_at_scenario_points)
          (Scenario.discounted_binary64 Scenario.cos_at_scenario_points)
          (Scenario.rule_binary64 Scenario.cos_at_scenario_points) 10 with
  | Ok (h, s', lr') =>
      exists q c,
        Binary64.int_truediv 10
          (total_epochs_per_period
             (Scenario.discounted_binary64 Scenario.cos_at_scenario_points)) =
          Some q
        /\ Binary64.trunc q = Some c
        /\ h = (min_learning_rate
                  (Scenario.discounted_binary64 Scenario.cos_at_scenario_points) +
                0.5 * (@effective_max_learning_rate
                         (binary64 Scenario.cos_at_scenario_points)
                         (Scenario.discounted_binary64
                            Scenario.cos_at_scenario_points) c
                       - min_learning_rate
                           (Scenario.discounted_binary64
                              Scenario.cos_at_scenario_points)) * 2)%float
        /\ lr' = LearningRule.reset
                   (Scenario.rule_binary64 Scenario.cos_at_scenario_points)
        /\ tCur s' = 1%Z
        /\ t s' = (c + 1)%Z
  | Raise x (s', lr') =>
      x <> ZeroDivisionError
      /\ lr' = Scenario.rule_binary64 Scenario.cos_at_scenario_points
      /\ tCur s' =
         (10 mod total_epochs_per_period
                   (Scenario.discounted_binary64 Scenario.cos_at_scenario_points))%Z
  end.
Proof.
  apply (proj1 X11_binary64_restart_rate Scenario.cos_at_scenario_points
           (Scenario.discounted_binary64 Scenario.cos_at_scenario_points)
           (Scenario.rule_binary64 Scenario.cos_at_scenario_points) 10%Z).
  - reflexivity.
  - cbn. lia.
  - reflexivity.
Defined.

(** ** The shape of the rate inside a period, in exact arithmetic *)
Section RateShape.
Open Scope R_scope.

Lemma cos_position_above_trough (P p : Z) :
  (0 <= p < P)%Z -> -1 < cos (PI * (IZR p / IZR P)).
Proof.
  intros Hp.
  assert (HP : 0 < IZR P) by (apply IZR_lt; lia).
  assert (H0 : 0 <= IZR p) by (apply IZR_le; lia).
  assert (H1 : IZR p < IZR P) by (apply IZR_lt; lia).
  assert (Hq0 : 0 <= IZR p / IZR P).
  { apply Rmult_le_pos; [exact H0 | left; apply Rinv_0_lt_compat; exact HP]. }
  assert (Hq1 : IZR p / IZR P < 1).
  { apply (Rmult_lt_reg_r (IZR P)); [exact HP |].
    unfold Rdiv. rewrite Rmult_assoc, Rinv_l by lra. lra. }
  pose proof PI_RGT_0 as Hpi.
  rewrite <- cos_PI. apply cos_decreasing_1; nra.
Qed.

Lemma cos_position_mirror (P p : Z) :
  (0 < P)%Z ->
  cos (PI * (IZR (P - p) / IZR P)) = - cos (PI * (IZR p / IZR P)).
Proof.
  intros HP.
  assert (HPR : IZR P <> 0) by (apply not_0_IZR; lia).
  replace (PI * (IZR (P - p) / IZR P)) with (PI - PI * (IZR p / IZR P))
    by (rewrite minus_IZR; field; exact HPR).
  rewrite cos_minus, cos_PI, sin_PI. ring.
Qed.

(** X12.  The minimum rate is approached but never returned: with a
    positive period and an effective maximum above the minimum, every call
    returns a rate strictly greater than the minimum, because the position
    never reaches the full period. *)
Theorem X12_rate_stays_above_minimum :
  forall (s : @self exact) (lr : @LearningRule.t exact) (e : Z),
    (0 < total_epochs_per_period s)%Z ->
    min_learning_rate s <
      @effective_max_learning_rate exact s (Z.quot e (total_epochs_per_period s)) ->
    exists h s' lr',
      @update_learning_rule exact s lr e = Ok (h, s', lr')
      /\ min_learning_rate s < h.
Proof.
  intros s lr e HP Heff.
  assert (HPne : total_epochs_per_period s <> 0%Z) by lia.
  destruct (Req_dec_T (IZR e) (exact_value (tNext s))) as [E | N].
  - rewrite (exact_update_restart s lr e HPne E). do 3 eexists.
    split; [reflexivity |]. rewrite exact_cosine_rate_peak. exact Heff.
  - rewrite (exact_update_plain s lr e HPne N). do 3 eexists.
    split; [reflexivity |].
    pose proof (@cos_position_above_trough (total_epochs_per_period s)
                  (e mod total_epochs_per_period s)
                  (Z.mod_pos_bound e _ HP)) as Hc.
    unfold cosine_rate. cbn [F fadd fsub fmul half one math_cos math_pi exact].
    set (c := cos (PI * (IZR (e mod total_epochs_per_period s) /
                         IZR (total_epochs_per_period s)))) in *.
    change (@F exact) with R in *.
    set (eff := @effective_max_learning_rate exact s
                  (Z.quot e (total_epochs_per_period s)) : R) in *.
    set (mn := min_learning_rate s : R) in *.
    nra.
Qed.

Lemma X12_witness :
  exists h s' lr',
    @update_learning_rule exact Scenario.plain_exact Scenario.rule_exact 9 =
      Ok (h, s', lr')
    /\ min_learning_rate Scenario.plain_exact < h.
Proof.
  apply (@X12_rate_stays_above_minimum Scenario.plain_exact Scenario.rule_exact 9%Z).
  - cbn. lia.
  - rewrite exact_effective_max_nonpos by (cbn; lia).
    cbn [Scenario.plain_exact init min_learning_rate max_learning_rate]. lra.
Defined.

(** X13.  Inside a cycle the schedule is symmetric about its midpoint: two
    calls without restart, on schedulers with the same hyperparameters, at
    epochs of the same cycle index whose positions add up to the period,
    return rates that add up to the minimum plus the effective maximum. *)
Theorem X13_rate_mirror_symmetry :
  forall (s1 s2 : @self exact) (lr1 lr2 : @LearningRule.t exact) (e1 e2 : Z),
    hyperparameters s1 = hyperparameters s2 ->
    (0 < total_epochs_per_period s1)%Z ->
    IZR e1 <> exact_value (tNext s1) ->
    IZR e2 <> exact_value (tNext s2) ->
    Z.quot e1 (total_epochs_per_period s1) = Z.quot e2 (total_epochs_per_period s1) ->
    (e1 mod total_epochs_per_period s1 + e2 mod total_epochs_per_period s1 =
     total_epochs_per_period s1)%Z ->
    exists h1 s1' h2 s2',
      @update_learning_rule exact s1 lr1 e1 = Ok (h1, s1', lr1)
      /\ @update_learning_rule exact s2 lr2 e2 = Ok (h2, s2', lr2)
      /\ h1 + h2 =
         min_learning_rate s1 +
         @effective_max_learning_rate exact s1 (Z.quot e1 (total_epochs_per_period s1)).
Proof.
  intros s1 s2 lr1 lr2 e1 e2 Hhyp HP Hn1 Hn2 Hq Hsum.
  unfold hyperparameters in Hhyp.
  assert (Hmn : min_learning_rate s2 = min_learning_rate s1) by (inversion Hhyp; auto).
  assert (Hmx : max_learning_rate s2 = max_learning_rate s1) by (inversion Hhyp; auto).
  assert (HPe : total_epochs_per_period s2 = total_epochs_per_period s1)
    by (inversion Hhyp; auto).
  assert (Hd : max_learning_rate_discount_factor s2 = max_learning_rate_discount_factor s1)
    by (inversion Hhyp; auto).
  set (P := total_epochs_per_period s1) in *.
  assert (HP1 : total_epochs_per_period s1 <> 0%Z) by (fold P; lia).
  assert (HP2 : total_epochs_per_period s2 <> 0%Z) by (rewrite HPe; lia).
  rewrite (exact_update_plain s1 lr1 e1 HP1 Hn1).
  rewrite (exact_update_plain s2 lr2 e2 HP2 Hn2).
  do 4 eexists. split; [reflexivity | split; [reflexivity |]].
  rewrite HPe. fold P. rewrite <- Hq.
  replace (e2 mod P)%Z with (P - e1 mod P)%Z by lia.
  unfold cosine_rate, effective_max_learning_rate.
  cbn [F fadd fsub fmul half one math_cos math_pi exact].
  rewrite Hmn, Hmx, Hd.
  rewrite (@cos_position_mirror P (e1 mod P) HP).
  field.
Qed.

Lemma X13_witness :
  exists h1 s1' h2 s2',
    @update_learning_rule exact Scenario.plain_exact Scenario.rule_exact 3 =
      Ok (h1, s1', Scenario.rule_exact)
    /\ @update_learning_rule exact Scenario.plain_exact Scenario.rule_exact 7 =
         Ok (h2, s2', Scenario.rule_exact)
    /\ h1 + h2 =
       min_learning_rate Scenario.plain_exact +
       @effective_max_learning_rate exact Scenario.plain_exact
         (Z.quot 3 (total_epochs_per_period Scenario.plain_exact)).
Proof.
  apply (@X13_rate_mirror_symmetry Scenario.plain_exact Scenario.plain_exact
           Scenario.rule_exact Scenario.rule_exact 3%Z 7%Z).
  - reflexivity.
  - cbn. lia.
  - cbn [Scenario.plain_exact init tNext exact_value]. lra.
  - cbn [Scenario.plain_exact init tNext exact_value]. lra.
  - reflexivity.
  - reflexivity.
Defined.
End RateShape.
